(** * GitHubSentinel: the LLM report adapter ([src/llm.py])

    A shallow embedding of [class LLM]: the constructor, which selects one of
    three back ends from the configuration, and [generate_report], which builds
    the two-message prompt, sends it to the selected back end and extracts the
    text of the reply.

    [Config.load_config] of [src/config.py], which fills the configuration
    from the parsed JSON document and the environment, is embedded as
    [ConfigLoader.load_config].

    Python values are the inductive [pyval]; a [str] is a [string] holding its
    UTF-8 bytes; a [dict] is the list of its items in insertion order.  The
    outside world (the OpenAI SDK, [requests], the logger) is a record of
    oracles, and a call returns the events it caused together with its value or
    the exception it raised. *)

From Stdlib Require Import Bool Ascii String List ZArith Lia.
From Stdlib Require Import Floats.
From Stdlib Require Import DecimalString.
Import ListNotations.

Local Open Scope string_scope.
Local Open Scope Z_scope.

Set Implicit Arguments.
Set Warnings "-inexact-float,-register-all".

(** ** Python strings *)

Module PyStr.

(** ['A' <= c <= 'Z']. *)
Definition is_upper (c : ascii) : bool :=
  let n := nat_of_ascii c in ((65 <=? n) && (n <=? 90))%nat.

Definition lower_char (c : ascii) : ascii :=
  if is_upper c then ascii_of_nat (nat_of_ascii c + 32) else c.

(** [str.lower()].  The letters A-Z are mapped to a-z and every other byte is
    kept, which is what Python does on ASCII text.  Python also lowers cased
    characters outside ASCII; of those only U+0130 and U+212A produce an
    ASCII letter ([i] followed by U+0307, and [k]), so a comparison of the
    result with [openai], [azure], [azure_openai] or [ollama] has the same
    outcome under both readings; the lowered string itself is exact for
    ASCII selectors. *)
Fixpoint lower (s : string) : string :=
  match s with
  | EmptyString => EmptyString
  | String c s' => String (lower_char c) (lower s')
  end.

(** [s.rstrip('/')]: drop every trailing ['/']. *)
Fixpoint rstrip_slash (s : string) : string :=
  match s with
  | EmptyString => EmptyString
  | String c s' =>
      match rstrip_slash s' with
      | EmptyString => if Ascii.eqb c "/" then EmptyString else String c EmptyString
      | r => String c r
      end
  end.

(** [sub in s]. *)
Fixpoint contains (sub s : string) : bool :=
  prefix sub s ||
  match s with
  | EmptyString => false
  | String _ s' => contains sub s'
  end.

(** Number of bytes of the UTF-8 character that starts with byte [c]. *)
Definition utf8_len (c : ascii) : nat :=
  let n := nat_of_ascii c in
  if (n <? 192)%nat then 1%nat
  else if (n <? 224)%nat then 2%nat
  else if (n <? 240)%nat then 3%nat else 4%nat.

(** [s[0]] of a non-empty [str]: its first character. *)
Definition first_char (s : string) : string :=
  match s with
  | EmptyString => EmptyString
  | String c _ => substring 0 (utf8_len c) s
  end.

(** [str(n)] of an [int]. *)
Definition of_Z (n : Z) : string := NilZero.string_of_int (Z.to_int n).

(** Equality up to the case of the letters A-Z / a-z, character by
    character. *)
Definition same_letter (c d : ascii) : bool :=
  Ascii.eqb c d
  || (is_upper c && Ascii.eqb (lower_char c) d)
  || (is_upper d && Ascii.eqb c (lower_char d)).

Fixpoint eq_ignore_case (s t : string) : bool :=
  match s, t with
  | EmptyString, EmptyString => true
  | String c s', String d t' => same_letter c d && eq_ignore_case s' t'
  | _, _ => false
  end.

End PyStr.

(** ** Python values *)

(** The values that [json.load] and [response.json()] produce, which are also
    the values the request payloads are made of. *)
Inductive pyval : Type :=
| PyNone
| PyBool (b : bool)
| PyInt (n : Z)
| PyFloat (x : float)
| PyStr (s : string)
| PyList (l : list pyval)
| PyDict (d : list (string * pyval)).


Module Py.

(** [bool(v)]. *)
Definition truthy (v : pyval) : bool :=
  match v with
  | PyNone => false
  | PyBool b => b
  | PyInt n => negb (n =? 0)
  | PyFloat x => negb (PrimFloat.eqb x 0%float)
  | PyStr s => negb (String.eqb s "")
  | PyList l => match l with [] => false | _ :: _ => true end
  | PyDict d => match d with [] => false | _ :: _ => true end
  end.

(** [a or b]. *)
Definition or (a b : pyval) : pyval := if truthy a then a else b.

(** [type(v).__name__]. *)
Definition type_name (v : pyval) : string :=
  match v with
  | PyNone => "NoneType"
  | PyBool _ => "bool"
  | PyInt _ => "int"
  | PyFloat _ => "float"
  | PyStr _ => "str"
  | PyList _ => "list"
  | PyDict _ => "dict"
  end.

(** Look a key up in the items of a [dict] (the keys of a [dict] are
    distinct; the first item with the key is the item). *)
Fixpoint lookup (k : string) (d : list (string * pyval)) : option pyval :=
  match d with
  | [] => None
  | (k', v) :: d' => if String.eqb k k' then Some v else lookup k d'
  end.

(** A value of type [option string] is [None] or a [str]. *)
Definition of_opt (o : option string) : pyval :=
  match o with None => PyNone | Some s => PyStr s end.

(** How an f-string renders a [None]-or-[str] value. *)
Definition format_opt (o : option string) : string :=
  match o with None => "None" | Some s => s end.

End Py.

(** ** Exceptions *)

(** The exception classes that occur; the argument is [str(e)]. *)
Inductive exn : Type :=
| ValueError (msg : string)
| AttributeError (msg : string)
| TypeError (msg : string)
| KeyError (msg : string)
| IndexError (msg : string)
| HTTPError (msg : string)
| JSONDecodeError (msg : string)
| RequestException (msg : string)
| OpenAIError (msg : string).

Definition str_exn (e : exn) : string :=
  match e with
  | ValueError m | AttributeError m | TypeError m | KeyError m | IndexError m
  | HTTPError m | JSONDecodeError m | RequestException m | OpenAIError m => m
  end.

(** [v.get(k, default)]: only a [dict] has the method. *)
Definition py_get (v : pyval) (k : string) (default : pyval) : exn + pyval :=
  match v with
  | PyDict d => inr (match Py.lookup k d with Some x => x | None => default end)
  | _ => inl (AttributeError ("'" ++ Py.type_name v ++ "' object has no attribute 'get'"))
  end.

(** [v[0]]. *)
Definition py_item0 (v : pyval) : exn + pyval :=
  match v with
  | PyList (x :: _) => inr x
  | PyList [] => inl (IndexError "list index out of range")
  | PyStr s =>
      if String.eqb s "" then inl (IndexError "string index out of range")
      else inr (PyStr (PyStr.first_char s))
  | PyDict _ => inl (KeyError "0")
  | _ => inl (TypeError ("'" ++ Py.type_name v ++ "' object is not subscriptable"))
  end.

(** ** The outside world *)

(** The reply objects of the OpenAI SDK, as far as the adapter reads them. *)
Module OpenAI.
Record ChatCompletionMessage : Type := { content : option string }.
Record Choice : Type := { message : ChatCompletionMessage }.
Record ChatCompletion : Type := { choices : list Choice }.
(** The object [OpenAI()] returns. *)
Inductive Client : Type := client_handle.
End OpenAI.

(** The [requests] library. *)
Module requests.

(** The arguments of a [requests.post] call. *)
Record Request : Type := {
  url : string;
  headers : option (list (string * pyval));
  json : pyval;
  timeout : option Z
}.

Record Response : Type := {
  status_code : Z;
  reason : string;
  response_url : string;
  (** [response.json()]: the parsed body, or the message of the decoding
      error. *)
  response_json : string + pyval
}.

(** [response.raise_for_status()]. *)
Definition raise_for_status (r : Response) : exn + unit :=
  let st := status_code r in
  if (400 <=? st) && (st <? 500) then
    inl (HTTPError (PyStr.of_Z st ++ " Client Error: " ++ reason r
                    ++ " for url: " ++ response_url r))
  else if (500 <=? st) && (st <? 600) then
    inl (HTTPError (PyStr.of_Z st ++ " Server Error: " ++ reason r
                    ++ " for url: " ++ response_url r))
  else inr tt.

End requests.

(** What the environment answers: a string on the left is the message of the
    exception the library raises. *)
Record World : Type := {
  (** [OpenAI()] *)
  w_openai_new : string + OpenAI.Client;
  (** [client.chat.completions.create(model=..., messages=...)] *)
  w_chat_create :
    OpenAI.Client -> string -> pyval -> string + OpenAI.ChatCompletion;
  (** [requests.post(...)] *)
  w_post : requests.Request -> string + requests.Response
}.

Inductive level : Type := INFO | DEBUG | ERROR.

(** An argument handed to the logger next to the message. *)
Inductive log_arg : Type :=
| ArgVal (v : pyval)
| ArgCompletion (r : OpenAI.ChatCompletion).

(** What a call does to the outside, in order. *)
Inductive event : Type :=
| Log (lv : level) (msg : string) (args : list log_arg)
| ChatCreate (model : string) (messages : pyval)
| Post (r : requests.Request).

(** ** Computations: events, then a value or an exception *)

Definition M (A : Type) : Type := World -> list event * (exn + A).

Definition ret {A} (a : A) : M A := fun _ => ([], inr a).

Definition raise {A} (e : exn) : M A := fun _ => ([], inl e).

Definition bind {A B} (m : M A) (k : A -> M B) : M B :=
  fun w =>
    match m w with
    | (t, inl e) => (t, inl e)
    | (t, inr a) => let (t', r) := k a w in ((t ++ t')%list, r)
    end.

(** [try: m  except Exception as e: h e]. *)
Definition try_except {A} (m : M A) (h : exn -> M A) : M A :=
  fun w =>
    match m w with
    | (t, inl e) => let (t', r) := h e w in ((t ++ t')%list, r)
    | (t, inr a) => (t, inr a)
    end.

Definition lift {A} (r : exn + A) : M A :=
  fun _ => ([], r).

Definition LOG (lv : level) (msg : string) (args : list log_arg) : M unit :=
  fun _ => ([Log lv msg args], inr tt).

Declare Scope py_scope.
Delimit Scope py_scope with py.
Notation "x <- m ;; k" := (bind m (fun x => k))
  (at level 61, m at next level, right associativity) : py_scope.
Notation "m ;; k" := (bind m (fun _ => k))
  (at level 61, right associativity) : py_scope.

(** The events of a run and its result. *)
Definition trace {A} (r : list event * (exn + A)) : list event := fst r.
Definition result {A} (r : list event * (exn + A)) : exn + A := snd r.

(** The requests among the events: the calls that leave the process. *)
Definition is_request (ev : event) : bool :=
  match ev with Log _ _ _ => false | _ => true end.

Definition requests_of (t : list event) : list event := filter is_request t.

(** [OpenAI()]. *)
Definition OpenAI_new : M OpenAI.Client :=
  fun w =>
    ([], match w_openai_new w with
         | inl m => inl (OpenAIError m)
         | inr c => inr c
         end).

(** [client.chat.completions.create(model=model, messages=messages)]. *)
Definition chat_completions_create (client : OpenAI.Client) (model : string)
    (messages : pyval) : M OpenAI.ChatCompletion :=
  fun w =>
    ([ChatCreate model messages],
     match w_chat_create w client model messages with
     | inl m => inl (OpenAIError m)
     | inr r => inr r
     end).

(** [requests.post(url, headers=..., json=..., timeout=...)]. *)
Definition requests_post (r : requests.Request) : M requests.Response :=
  fun w =>
    ([Post r],
     match w_post w r with
     | inl m => inl (RequestException m)
     | inr resp => inr resp
     end).

(** [response.json()]. *)
Definition response_json (r : requests.Response) : exn + pyval :=
  match requests.response_json r with
  | inl m => inl (JSONDecodeError m)
  | inr v => inr v
  end.

(** ** The configuration object ([src/config.py]) *)

Module Config.

(** The attributes of a [Config] that [LLM] reads.  The selector, the model
    names and the Ollama URL are [str]; the three Azure settings are [None]
    or a [str].  [azure_api_version] is [None] when the object has no such
    attribute, and otherwise holds the attribute's value. *)
Record t : Type := {
  llm_model_type : string;
  openai_model_name : string;
  ollama_model_name : string;
  ollama_api_url : string;
  azure_base_url : option string;
  azure_deployment_name : option string;
  azure_api_key : option string;
  azure_api_version : option (option string)
}.

End Config.

(** ** [class LLM] *)

Module LLM.

Local Open Scope py_scope.

(** An instance: [config] and [model] are set first; each of the other
    attributes is [None] until the constructor assigns it, and [Some v] once
    it holds the value [v] (for the Azure settings copied from the
    configuration, [v] is again [None] or a [str]). *)
Record t : Type := {
  config : Config.t;
  model : string;
  client : option OpenAI.Client;
  azure_base_url : option string;
  azure_deployment_name : option (option string);
  azure_api_key : option (option string);
  azure_api_version : option (option string);
  api_url : option string
}.

(** [self.name], for an attribute that may not have been assigned. *)
Definition attr {A} (name : string) (o : option A) : M A :=
  match o with
  | Some a => ret a
  | None => raise (AttributeError ("'LLM' object has no attribute '" ++ name ++ "'"))
  end.

Definition incomplete_msg : string :=
  "Azure OpenAI configuration incomplete: azure_base_url, azure_deployment_name, azure_api_key required".

Definition unsupported_msg (model : string) : string :=
  "不支持的模型类型: " ++ model.

(** [LLM.__init__(self, config)]. *)
Definition __init__ (config : Config.t) : M t :=
  let model := PyStr.lower (Config.llm_model_type config) in
  if String.eqb model "openai" then
    client <- OpenAI_new ;;
    ret {| config := config; model := model; client := Some client;
           azure_base_url := None; azure_deployment_name := None;
           azure_api_key := None; azure_api_version := None;
           api_url := None |}
  else if String.eqb model "azure" || String.eqb model "azure_openai" then
    if negb (Py.truthy (Py.of_opt (Config.azure_base_url config)))
       || negb (Py.truthy (Py.of_opt (Config.azure_deployment_name config)))
       || negb (Py.truthy (Py.of_opt (Config.azure_api_key config)))
    then
      LOG ERROR "Azure OpenAI 配置不完整: base_url, deployment_name 和 api_key 必须提供" [] ;;
      raise (ValueError incomplete_msg)
    else
      base_url <-
        match Config.azure_base_url config with
        | Some s => ret (PyStr.rstrip_slash s)
        | None => raise (AttributeError "'NoneType' object has no attribute 'rstrip'")
        end ;;
      ret {| config := config; model := model; client := None;
             azure_base_url := Some base_url;
             azure_deployment_name := Some (Config.azure_deployment_name config);
             azure_api_key := Some (Config.azure_api_key config);
             azure_api_version :=
               Some match Config.azure_api_version config with
                    | Some v => v
                    | None => Some "2023-05-15"
                    end;
             api_url := None |}
  else if String.eqb model "ollama" then
    ret {| config := config; model := model; client := None;
           azure_base_url := None; azure_deployment_name := None;
           azure_api_key := None; azure_api_version := None;
           api_url := Some (Config.ollama_api_url config) |}
  else
    LOG ERROR (unsupported_msg model) [] ;;
    raise (ValueError (unsupported_msg model)).

(** [LLM._generate_report_openai(self, messages)]. *)
Definition _generate_report_openai (self : t) (messages : pyval) : M pyval :=
  LOG INFO ("使用 OpenAI " ++ Config.openai_model_name (config self) ++ " 模型生成报告。") [] ;;
  try_except
    (client <- attr "client" (client self) ;;
     response <- chat_completions_create client
                   (Config.openai_model_name (config self)) messages ;;
     LOG DEBUG "GPT 响应: {}" [ArgCompletion response] ;;
     choice <- lift match OpenAI.choices response with
                    | c :: _ => inr c
                    | [] => inl (IndexError "list index out of range")
                    end ;;
     ret (Py.of_opt (OpenAI.content (OpenAI.message choice))))
    (fun e =>
       LOG ERROR ("生成报告时发生错误：" ++ str_exn e) [] ;;
       raise e).

(** [LLM._generate_report_azure(self, messages)].  The literal [0.7] is the
    binary64 number nearest to 7/10, in Python as here. *)
Definition _generate_report_azure (self : t) (messages : pyval) : M pyval :=
  deployment <- attr "azure_deployment_name" (azure_deployment_name self) ;;
  LOG INFO ("使用 Azure OpenAI 部署 " ++ Py.format_opt deployment ++ " 生成报告。") [] ;;
  try_except
    (base_url <- attr "azure_base_url" (azure_base_url self) ;;
     deployment <- attr "azure_deployment_name" (azure_deployment_name self) ;;
     version <- attr "azure_api_version" (azure_api_version self) ;;
     let url := base_url ++ "/openai/deployments/" ++ Py.format_opt deployment
                ++ "/chat/completions?api-version=" ++ Py.format_opt version in
     let payload := PyDict [
       ("messages", messages);
       ("max_tokens", PyInt 4000);
       ("temperature", PyFloat 0.7);
       ("top_p", PyInt 1)
     ] in
     api_key <- attr "azure_api_key" (azure_api_key self) ;;
     let headers := [
       ("Content-Type", PyStr "application/json");
       ("api-key", Py.of_opt api_key)
     ] in
     response <- requests_post
                   {| requests.url := url; requests.headers := Some headers;
                      requests.json := payload; requests.timeout := Some 60 |} ;;
     lift (requests.raise_for_status response) ;;
     data <- lift (response_json response) ;;
     LOG DEBUG "Azure OpenAI 响应: {}" [ArgVal data] ;;
     got <- lift (py_get data "choices" PyNone) ;;
     let choices := Py.or got (PyList []) in
     if negb (Py.truthy choices) then
       LOG ERROR "Azure OpenAI 返回的响应中没有 choices: %s" [ArgVal data] ;;
       raise (ValueError "Azure OpenAI response missing choices")
     else
       first <- lift (py_item0 choices) ;;
       got <- lift (py_get first "message" PyNone) ;;
       let message := Py.or got (PyDict []) in
       content <- lift (py_get message "content" PyNone) ;;
       if Py.truthy content then ret content
       else
         LOG ERROR "无法从 Azure OpenAI 响应中提取文本: %s" [ArgVal data] ;;
         raise (ValueError "Cannot extract text from Azure OpenAI response"))
    (fun e =>
       LOG ERROR ("生成报告时发生错误（Azure）: " ++ str_exn e) [] ;;
       raise e).

(** [LLM._generate_report_ollama(self, messages)]. *)
Definition _generate_report_ollama (self : t) (messages : pyval) : M pyval :=
  LOG INFO ("使用 Ollama " ++ Config.ollama_model_name (config self) ++ " 模型生成报告。") [] ;;
  try_except
    (let payload := PyDict [
       ("model", PyStr (Config.ollama_model_name (config self)));
       ("messages", messages);
       ("max_tokens", PyInt 4000);
       ("temperature", PyFloat 0.7);
       ("stream", PyBool false)
     ] in
     api_url <- attr "api_url" (api_url self) ;;
     response <- requests_post
                   {| requests.url := api_url; requests.headers := None;
                      requests.json := payload; requests.timeout := None |} ;;
     response_data <- lift (response_json response) ;;
     LOG DEBUG "Ollama 响应: {}" [ArgVal response_data] ;;
     message <- lift (py_get response_data "message" (PyDict [])) ;;
     message_content <- lift (py_get message "content" PyNone) ;;
     if Py.truthy message_content then ret message_content
     else
       LOG ERROR "无法从响应中提取报告内容。" [] ;;
       raise (ValueError "Ollama API 返回的响应结构无效"))
    (fun e =>
       LOG ERROR ("生成报告时发生错误：" ++ str_exn e) [] ;;
       raise e).

(** [LLM.generate_report(self, system_prompt, user_content)]. *)
Definition generate_report (self : t) (system_prompt user_content : string)
    : M pyval :=
  let messages := PyList [
    PyDict [("role", PyStr "system"); ("content", PyStr system_prompt)];
    PyDict [("role", PyStr "user"); ("content", PyStr user_content)]
  ] in
  if String.eqb (model self) "openai" then
    _generate_report_openai self messages
  else if String.eqb (model self) "azure" || String.eqb (model self) "azure_openai" then
    _generate_report_azure self messages
  else if String.eqb (model self) "ollama" then
    _generate_report_ollama self messages
  else
    raise (ValueError (unsupported_msg (model self))).

End LLM.

(** ** Vocabulary of the specification *)

(** The selector values the specification lists. *)
Definition supported_selectors : list string :=
  ["openai"; "azure"; "azure_openai"; "ollama"].

(** A setting that is absent ([None]) or empty. *)
Definition missing (o : option string) : Prop := o = None \/ o = Some "".

(** A setting that holds a non-empty [str]. *)
Definition present (o : option string) : Prop := exists s, o = Some s /\ s <> "".

(** The URL template of the specification, over the base URL, the deployment
    name and the API version. *)
Definition azure_url_template (base_url deployment_name version : string) : string :=
  base_url ++ "/openai/deployments/" ++ deployment_name
  ++ "/chat/completions?api-version=" ++ version.

(** The API version a configuration stands for: the value of its
    [azure_api_version] attribute, or [2023-05-15] when it has none. *)
Definition configured_version (cfg : Config.t) : option string :=
  match Config.azure_api_version cfg with
  | Some v => v
  | None => Some "2023-05-15"
  end.

(** The two messages of a request. *)
Definition system_message (system_prompt : string) : pyval :=
  PyDict [("role", PyStr "system"); ("content", PyStr system_prompt)].

Definition user_message (user_content : string) : pyval :=
  PyDict [("role", PyStr "user"); ("content", PyStr user_content)].

(** The [messages] a request carries: the argument of the SDK call, or the
    [messages] entry of the JSON body of a POST. *)
Definition messages_of (ev : event) : option pyval :=
  match ev with
  | Log _ _ _ => None
  | ChatCreate _ m => Some m
  | Post r =>
      match requests.json r with
      | PyDict d => Py.lookup "messages" d
      | _ => None
      end
  end.

(** The URLs of the POSTs among the events. *)
Definition post_urls (t : list event) : list string :=
  flat_map (fun ev => match ev with Post r => [requests.url r] | _ => [] end) t.

(** A JSON object without usable [choices]: the key is absent, [null], or an
    empty list. *)
Definition no_choices (d : list (string * pyval)) : Prop :=
  Py.lookup "choices" d = None \/
  Py.lookup "choices" d = Some PyNone \/
  Py.lookup "choices" d = Some (PyList []).

(** A first choice without message content: its [message] is absent, [null]
    or an object whose [content] is absent, [null] or the empty string. *)
Definition no_message_content (choice : list (string * pyval)) : Prop :=
  Py.lookup "message" choice = None \/
  Py.lookup "message" choice = Some PyNone \/
  exists m, Py.lookup "message" choice = Some (PyDict m) /\
            (Py.lookup "content" m = None \/
             Py.lookup "content" m = Some PyNone \/
             Py.lookup "content" m = Some (PyStr "")).

(** An instance as the constructor leaves it, one case per back end. *)
Inductive Constructed (cfg : Config.t) : LLM.t -> Prop :=
| Constructed_openai (c : OpenAI.Client) :
    PyStr.lower (Config.llm_model_type cfg) = "openai" ->
    Constructed cfg
      {| LLM.config := cfg; LLM.model := "openai"; LLM.client := Some c;
         LLM.azure_base_url := None; LLM.azure_deployment_name := None;
         LLM.azure_api_key := None; LLM.azure_api_version := None;
         LLM.api_url := None |}
| Constructed_azure (m base dep key : string) :
    PyStr.lower (Config.llm_model_type cfg) = m ->
    m = "azure" \/ m = "azure_openai" ->
    Config.azure_base_url cfg = Some base -> base <> "" ->
    Config.azure_deployment_name cfg = Some dep -> dep <> "" ->
    Config.azure_api_key cfg = Some key -> key <> "" ->
    Constructed cfg
      {| LLM.config := cfg; LLM.model := m; LLM.client := None;
         LLM.azure_base_url := Some (PyStr.rstrip_slash base);
         LLM.azure_deployment_name := Some (Some dep);
         LLM.azure_api_key := Some (Some key);
         LLM.azure_api_version := Some (configured_version cfg);
         LLM.api_url := None |}
| Constructed_ollama :
    PyStr.lower (Config.llm_model_type cfg) = "ollama" ->
    Constructed cfg
      {| LLM.config := cfg; LLM.model := "ollama"; LLM.client := None;
         LLM.azure_base_url := None; LLM.azure_deployment_name := None;
         LLM.azure_api_key := None; LLM.azure_api_version := None;
         LLM.api_url := Some (Config.ollama_api_url cfg) |}.

(** ** Sample configurations and mocked worlds *)

Module Sample.

(** A configuration with the defaults of [config.py], a selector and the
    three Azure settings. *)
Definition cfg (selector : string) (base_url deployment_name api_key : option string)
    : Config.t :=
  {| Config.llm_model_type := selector;
     Config.openai_model_name := "gpt-4o-mini";
     Config.ollama_model_name := "llama3";
     Config.ollama_api_url := "http://localhost:11434/api/chat";
     Config.azure_base_url := base_url;
     Config.azure_deployment_name := deployment_name;
     Config.azure_api_key := api_key;
     Config.azure_api_version := Some (Some "2023-05-15") |}.

Definition azure_cfg (selector base_url : string) : Config.t :=
  cfg selector (Some base_url) (Some "gpt4") (Some "secret").

Definition plain_cfg (selector : string) : Config.t :=
  cfg selector None None None.

(** A reply of the OpenAI SDK with one choice. *)
Definition completion (content : option string) : OpenAI.ChatCompletion :=
  {| OpenAI.choices :=
       [{| OpenAI.message := {| OpenAI.content := content |} |}] |}.

(** An HTTP reply with a JSON body. *)
Definition response (status : Z) (body : pyval) : requests.Response :=
  {| requests.status_code := status;
     requests.reason := "";
     requests.response_url := "";
     requests.response_json := inr body |}.

(** A world that answers every SDK call with [c] and every POST with [r]. *)
Definition world (c : OpenAI.ChatCompletion) (r : requests.Response) : World :=
  {| w_openai_new := inr OpenAI.client_handle;
     w_chat_create := fun _ _ _ => inr c;
     w_post := fun _ => inr r |}.

Definition world0 : World :=
  world (completion (Some "R1")) (response 200 (PyDict [])).

(** The instances the constructor builds from the sample configurations. *)
Definition openai_llm (selector : string) : LLM.t :=
  {| LLM.config := plain_cfg selector; LLM.model := "openai";
     LLM.client := Some OpenAI.client_handle;
     LLM.azure_base_url := None; LLM.azure_deployment_name := None;
     LLM.azure_api_key := None; LLM.azure_api_version := None;
     LLM.api_url := None |}.

Definition azure_llm (selector base_url stripped : string) : LLM.t :=
  {| LLM.config := azure_cfg selector base_url; LLM.model := "azure";
     LLM.client := None;
     LLM.azure_base_url := Some stripped;
     LLM.azure_deployment_name := Some (Some "gpt4");
     LLM.azure_api_key := Some (Some "secret");
     LLM.azure_api_version := Some (Some "2023-05-15");
     LLM.api_url := None |}.

Definition ollama_llm (selector : string) : LLM.t :=
  {| LLM.config := plain_cfg selector; LLM.model := "ollama";
     LLM.client := None;
     LLM.azure_base_url := None; LLM.azure_deployment_name := None;
     LLM.azure_api_key := None; LLM.azure_api_version := None;
     LLM.api_url := Some "http://localhost:11434/api/chat" |}.

End Sample.

(** ** Loading the configuration ([src/config.py]) *)

(** [d[k] = v] on the items of a [dict]: an existing key keeps its place. *)
Fixpoint py_set_item (k : string) (v : pyval) (d : list (string * pyval))
    : list (string * pyval) :=
  match d with
  | [] => [(k, v)]
  | (k', v') :: d' =>
      if String.eqb k k' then (k, v) :: d' else (k', v') :: py_set_item k v d'
  end.

(** [v[k] = x] for a [str] key: only a [dict] among the JSON values takes
    it. *)
Definition py_setitem (v : pyval) (k : string) (x : pyval) : exn + pyval :=
  match v with
  | PyDict d => inr (PyDict (py_set_item k x d))
  | PyList _ => inl (TypeError "list indices must be integers or slices, not str")
  | _ => inl (TypeError ("'" ++ Py.type_name v ++ "' object does not support item assignment"))
  end.

(** [isinstance(v, dict)]. *)
Definition is_dict (v : pyval) : bool :=
  match v with PyDict _ => true | _ => false end.

(** [os.getenv(name, default)] over the process environment (as it is after
    [load_dotenv()]). *)
Definition os_getenv (environ : string -> option string) (name : string)
    (default : pyval) : pyval :=
  match environ name with
  | Some s => PyStr s
  | None => default
  end.

Declare Scope exn_scope.
Delimit Scope exn_scope with exn.
Notation "x <- m ;; k" :=
  (match m with inl e => inl e | inr x => k end)
  (at level 61, m at next level, right associativity) : exn_scope.

Module ConfigLoader.

Local Open Scope exn_scope.

(** The attributes [load_config] assigns, with the values as they come out of
    the JSON document and the environment. *)
Record t : Type := {
  email : pyval;
  github_token : pyval;
  subscriptions_file : pyval;
  freq_days : pyval;
  exec_time : pyval;
  llm_model_type : pyval;
  openai_model_name : pyval;
  ollama_model_name : pyval;
  ollama_api_url : pyval;
  azure_base_url : pyval;
  azure_deployment_name : pyval;
  azure_api_key : pyval;
  azure_api_version : pyval;
  report_types : pyval;
  slack_webhook_url : pyval
}.

(** [Config.load_config(self)], from the point where [json.load(f)] has
    returned the document [config]; [environ] is the environment after
    [load_dotenv()].  A failure to open or to parse the file is raised
    before any of this runs. *)
Definition load_config (environ : string -> option string) (config : pyval)
    : exn + t :=
  email <- py_get config "email" (PyDict []) ;;
  file_password <- py_get email "password" (PyStr "") ;;
  email <- py_setitem email "password"
             (os_getenv environ "EMAIL_PASSWORD" file_password) ;;
  github_config <- py_get config "github" (PyDict []) ;;
  file_token <- py_get github_config "token" PyNone ;;
  let github_token := os_getenv environ "GITHUB_TOKEN" file_token in
  subscriptions_file <- py_get github_config "subscriptions_file" PyNone ;;
  freq_days <- py_get github_config "progress_frequency_days" (PyInt 1) ;;
  exec_time <- py_get github_config "progress_execution_time" (PyStr "08:00") ;;
  llm_config <- py_get config "llm" (PyDict []) ;;
  llm_model_type <- py_get llm_config "model_type" (PyStr "openai") ;;
  openai_model_name <- py_get llm_config "openai_model_name" (PyStr "gpt-4o-mini") ;;
  ollama_model_name <- py_get llm_config "ollama_model_name" (PyStr "llama3") ;;
  ollama_api_url <- py_get llm_config "ollama_api_url"
                      (PyStr "http://localhost:11434/api/chat") ;;
  azure <- py_get llm_config "azure" (PyDict []) ;;
  azure_block <- (if is_dict azure then py_get llm_config "azure" (PyDict [])
                  else inr (PyDict [])) ;;
  flat_base_url <- py_get llm_config "azure_base_url" PyNone ;;
  azure_base_url <- (if Py.truthy flat_base_url then inr flat_base_url
                     else py_get azure_block "base_url" PyNone) ;;
  flat_deployment <- py_get llm_config "azure_deployment_name" PyNone ;;
  azure_deployment_name <- (if Py.truthy flat_deployment then inr flat_deployment
                            else py_get azure_block "deployment_name" PyNone) ;;
  flat_key <- py_get llm_config "azure_api_key" PyNone ;;
  file_key <- (if Py.truthy flat_key then inr flat_key
               else py_get azure_block "api_key" PyNone) ;;
  let azure_api_key := os_getenv environ "AZURE_OPENAI_KEY" file_key in
  flat_version <- py_get llm_config "azure_api_version" PyNone ;;
  file_version <- (if Py.truthy flat_version then inr flat_version
                   else py_get azure_block "api_version" PyNone) ;;
  let azure_api_version := Py.or file_version (PyStr "2023-05-15") in
  report_types <- py_get config "report_types"
                    (PyList [PyStr "github"; PyStr "hacker_news"]) ;;
  slack_config <- py_get config "slack" (PyDict []) ;;
  slack_webhook_url <- py_get slack_config "webhook_url" PyNone ;;
  inr {| email := email;
         github_token := github_token;
         subscriptions_file := subscriptions_file;
         freq_days := freq_days;
         exec_time := exec_time;
         llm_model_type := llm_model_type;
         openai_model_name := openai_model_name;
         ollama_model_name := ollama_model_name;
         ollama_api_url := ollama_api_url;
         azure_base_url := azure_base_url;
         azure_deployment_name := azure_deployment_name;
         azure_api_key := azure_api_key;
         azure_api_version := azure_api_version;
         report_types := report_types;
         slack_webhook_url := slack_webhook_url |}.

(** [Config.__init__(self)]. *)
Definition __init__ (environ : string -> option string) (config : pyval)
    : exn + t :=
  load_config environ config.

(** A value read as a [str]. *)
Definition as_str (v : pyval) : option string :=
  match v with PyStr s => Some s | _ => None end.

(** A value read as [None] or a [str]. *)
Definition as_opt_str (v : pyval) : option (option string) :=
  match v with
  | PyNone => Some None
  | PyStr s => Some (Some s)
  | _ => None
  end.

(** The loaded object as [LLM] reads it, when the attributes [LLM] reads hold
    values of the types [Config.t] gives them; the values are not changed. *)
Definition to_Config (c : t) : option Config.t :=
  match as_str (llm_model_type c), as_str (openai_model_name c),
        as_str (ollama_model_name c), as_str (ollama_api_url c),
        as_opt_str (azure_base_url c), as_opt_str (azure_deployment_name c),
        as_opt_str (azure_api_key c), as_opt_str (azure_api_version c) with
  | Some ty, Some om, Some lm, Some lu, Some b, Some d, Some k, Some v =>
      Some {| Config.llm_model_type := ty;
              Config.openai_model_name := om;
              Config.ollama_model_name := lm;
              Config.ollama_api_url := lu;
              Config.azure_base_url := b;
              Config.azure_deployment_name := d;
              Config.azure_api_key := k;
              Config.azure_api_version := Some v |}
  | _, _, _, _, _, _, _, _ => None
  end.

End ConfigLoader.

(** ** Further vocabulary *)

(** The text each path puts before [str(e)] when it logs a failure. *)
Definition error_prefix (model : string) : string :=
  if String.eqb model "azure" || String.eqb model "azure_openai"
  then "生成报告时发生错误（Azure）: "
  else "生成报告时发生错误：".

Definition is_error_log (ev : event) : bool :=
  match ev with Log ERROR _ _ => true | _ => false end.

(** [n] slashes. *)
Fixpoint slashes (n : nat) : string :=
  match n with
  | O => ""
  | S n' => String "/" (slashes n')
  end.

(** [d.get(k, default)] on the items of a [dict]. *)
Definition dict_get (d : list (string * pyval)) (k : string) (default : pyval)
    : pyval :=
  match Py.lookup k d with Some v => v | None => default end.

(** The nested [azure] object of an [llm] block: its items when it is an
    object, no items otherwise. *)
Definition azure_block_of (llm : list (string * pyval)) : list (string * pyval) :=
  match Py.lookup "azure" llm with
  | Some (PyDict a) => a
  | _ => []
  end.

(** An Azure setting of an [llm] block: the flat key when its value counts as
    true, the key of the nested object otherwise. *)
Definition flat_or_nested (llm : list (string * pyval)) (flat nested : string)
    : pyval :=
  if Py.truthy (dict_get llm flat PyNone) then dict_get llm flat PyNone
  else dict_get (azure_block_of llm) nested PyNone.

(** The Azure settings [load_config] reads from the file alone: the
    attribute, its flat key in the [llm] block and its key in the nested
    [azure] object. *)
Definition azure_file_settings : list ((ConfigLoader.t -> pyval) * string * string) :=
  [(ConfigLoader.azure_base_url, "azure_base_url", "base_url");
   (ConfigLoader.azure_deployment_name, "azure_deployment_name", "deployment_name")].

(** A block of the document that is absent or a JSON object. *)
Definition absent_or_dict (o : option pyval) : Prop :=
  o = None \/ exists d, o = Some (PyDict d).

Module SampleEnv.

(** An environment without variables, and one with a single variable. *)
Definition empty : string -> option string := fun _ => None.

Definition single (name value : string) : string -> option string :=
  fun n => if String.eqb n name then Some value else None.

(** A document with an [llm] block that selects Azure and keeps its settings
    in the nested [azure] object. *)
Definition azure_document : pyval :=
  PyDict [("llm",
           PyDict [("model_type", PyStr "azure");
                   ("azure",
                    PyDict [("base_url", PyStr "https://h.example/");
                            ("deployment_name", PyStr "gpt4");
                            ("api_key", PyStr "secret")])])].

(** A reply to every POST with the given status and JSON body. *)
Definition world_post (status : Z) (body : pyval) : World :=
  Sample.world (Sample.completion None) (Sample.response status body).

(** A world in which every call to a back end fails with the message [m]. *)
Definition failing_world (m : string) : World :=
  {| w_openai_new := inr OpenAI.client_handle;
     w_chat_create := fun _ _ _ => inl m;
     w_post := fun _ => inl m |}.

End SampleEnv.

(** The proof steps shared below: unfold the operations on computations. *)
Ltac unfold_M :=
  unfold bind, try_except, ret, raise, lift, LOG, LLM.attr, OpenAI_new,
    chat_completions_create, requests_post, result, trace in *.

Ltac run_report :=
  unfold LLM.generate_report, LLM._generate_report_openai,
    LLM._generate_report_azure, LLM._generate_report_ollama;
  unfold_M; simpl.

(** Case analysis on whatever the run still branches on, innermost test
    first. *)
Ltac destruct_inner x :=
  lazymatch x with
  | context [match ?y with _ => _ end] => destruct_inner y
  | _ => destruct x eqn:?
  end.

Ltac split_run :=
  repeat match goal with
         | |- context [match ?x with _ => _ end] => destruct_inner x; simpl
         end.

(** ** Strings *)

Section Strings.

Lemma lower_char_idem (c : ascii) :
  PyStr.lower_char (PyStr.lower_char c) = PyStr.lower_char c.
Proof. destruct c as [[] [] [] [] [] [] [] []]; reflexivity. Qed.

Lemma same_letter_lower (c d : ascii) :
  PyStr.same_letter c d = true -> PyStr.lower_char c = PyStr.lower_char d.
Proof.
  unfold PyStr.same_letter. intros H.
  apply orb_true_iff in H. destruct H as [H | H].
  - apply orb_true_iff in H. destruct H as [H | H].
    + apply Ascii.eqb_eq in H. now subst.
    + apply andb_true_iff in H. destruct H as [_ H].
      apply Ascii.eqb_eq in H. subst d. now rewrite lower_char_idem.
  - apply andb_true_iff in H. destruct H as [_ H].
    apply Ascii.eqb_eq in H. subst c. now rewrite lower_char_idem.
Qed.

(** Strings equal up to letter case have the same lower-case form. *)
Lemma eq_ignore_case_lower (s t : string) :
  PyStr.eq_ignore_case s t = true -> PyStr.lower s = PyStr.lower t.
Proof.
  revert t. induction s as [| c s IH]; intros [| d t] H; simpl in *;
    try discriminate; auto.
  apply andb_true_iff in H. destruct H as [Hc Hs].
  now rewrite (same_letter_lower _ _ Hc), (IH _ Hs).
Qed.

(** [rstrip('/')] changes nothing in a string that does not end in ['/']. *)
Lemma rstrip_slash_append (s : string) (c : ascii) :
  c <> "/"%char -> PyStr.rstrip_slash (s ++ String c "") = s ++ String c "".
Proof.
  intros Hc. induction s as [| a s IH]; simpl.
  - destruct (Ascii.eqb_spec c "/"); [contradiction | reflexivity].
  - rewrite IH. destruct s; reflexivity.
Qed.

Lemma missing_or_present (o : option string) : missing o \/ present o.
Proof.
  destruct o as [s |]; [| left; now left].
  destruct (String.eqb_spec s "") as [-> | Hne].
  - left. now right.
  - right. now exists s.
Qed.

Lemma truthy_present (o : option string) :
  present o -> Py.truthy (Py.of_opt o) = true.
Proof.
  intros (s & -> & Hne). simpl.
  destruct (String.eqb_spec s ""); [contradiction | reflexivity].
Qed.

Lemma truthy_missing (o : option string) :
  missing o -> Py.truthy (Py.of_opt o) = false.
Proof. intros [-> | ->]; reflexivity. Qed.

Lemma unsupported_msg_not_incomplete (m : string) :
  LLM.unsupported_msg m <> LLM.incomplete_msg.
Proof. unfold LLM.unsupported_msg, LLM.incomplete_msg. simpl. discriminate. Qed.

End Strings.

(** ** The constructor *)

Section Constructor.

Variable cfg : Config.t.
Variable w : World.

(** Whatever the constructor returns is one of the three kinds of instance. *)
Lemma init_constructed (self : LLM.t) :
  result (LLM.__init__ cfg w) = inr self -> Constructed cfg self.
Proof.
  unfold LLM.__init__.
  destruct (String.eqb_spec (PyStr.lower (Config.llm_model_type cfg)) "openai")
    as [Ho | _].
  - rewrite Ho in *. unfold_M. simpl.
    destruct (w_openai_new w) as [m | c]; simpl; intros H; inversion H.
    now constructor.
  - destruct (String.eqb_spec (PyStr.lower (Config.llm_model_type cfg)) "azure")
      as [Ha | _];
    [| destruct (String.eqb_spec (PyStr.lower (Config.llm_model_type cfg))
                   "azure_openai") as [Ha | _]].
    1, 2: simpl orb;
      destruct (Config.azure_base_url cfg) as [b |] eqn:Eb;
      [destruct (String.eqb_spec b "") as [-> | Hb] |];
      [ | destruct (Config.azure_deployment_name cfg) as [d |] eqn:Ed;
          [destruct (String.eqb_spec d "") as [-> | Hd] |];
          [ | destruct (Config.azure_api_key cfg) as [k |] eqn:Ek;
              [destruct (String.eqb_spec k "") as [-> | Hk] |] | ] | ];
      unfold_M; simpl;
      repeat match goal with
             | |- context [String.eqb ?x ""] =>
                 destruct (String.eqb_spec x ""); [contradiction |]
             end; simpl;
      intros H; inversion H;
      eapply Constructed_azure; eauto.
    destruct (String.eqb_spec (PyStr.lower (Config.llm_model_type cfg)) "ollama")
      as [Hl | _]; unfold_M; simpl; intros H; inversion H.
    rewrite Hl. now constructor.
Qed.

(** With a selector that lowers to [azure] or [azure_openai], the
    constructor's outcome is decided by the three settings. *)
Lemma init_azure_incomplete :
  PyStr.lower (Config.llm_model_type cfg) = "azure" \/
  PyStr.lower (Config.llm_model_type cfg) = "azure_openai" ->
  missing (Config.azure_base_url cfg) \/
  missing (Config.azure_deployment_name cfg) \/
  missing (Config.azure_api_key cfg) ->
  result (LLM.__init__ cfg w) = inl (ValueError LLM.incomplete_msg).
Proof.
  intros Hsel Hmiss. unfold LLM.__init__.
  assert (Hc : negb (Py.truthy (Py.of_opt (Config.azure_base_url cfg)))
               || negb (Py.truthy (Py.of_opt (Config.azure_deployment_name cfg)))
               || negb (Py.truthy (Py.of_opt (Config.azure_api_key cfg))) = true).
  { destruct Hmiss as [H | [H | H]]; rewrite (truthy_missing H); simpl;
      rewrite ?orb_true_r; reflexivity. }
  destruct Hsel as [-> | ->]; simpl String.eqb; simpl orb; rewrite Hc;
    reflexivity.
Qed.

Lemma init_azure_complete :
  PyStr.lower (Config.llm_model_type cfg) = "azure" \/
  PyStr.lower (Config.llm_model_type cfg) = "azure_openai" ->
  present (Config.azure_base_url cfg) ->
  present (Config.azure_deployment_name cfg) ->
  present (Config.azure_api_key cfg) ->
  exists self, result (LLM.__init__ cfg w) = inr self.
Proof.
  intros Hsel Hb Hd Hk. unfold LLM.__init__.
  rewrite (truthy_present Hb), (truthy_present Hd), (truthy_present Hk).
  destruct Hb as (b & Eb & _). rewrite Eb.
  destruct Hsel as [-> | ->]; simpl; eexists; reflexivity.
Qed.

(** With any other selector the constructor logs and raises. *)
Lemma init_unsupported :
  ~ In (PyStr.lower (Config.llm_model_type cfg)) supported_selectors ->
  LLM.__init__ cfg w =
    ([Log ERROR (LLM.unsupported_msg (PyStr.lower (Config.llm_model_type cfg))) []],
     inl (ValueError (LLM.unsupported_msg (PyStr.lower (Config.llm_model_type cfg))))).
Proof.
  intros Hn. unfold LLM.__init__, supported_selectors in *.
  repeat match goal with
         | |- context [String.eqb ?x ?y] =>
             destruct (String.eqb_spec x y) as [E | _];
             [exfalso; apply Hn; rewrite E; simpl; tauto |]
         end.
  reflexivity.
Qed.

End Constructor.

Section ConstructorExamples.

Example init_openai_sample :
  LLM.__init__ (Sample.plain_cfg "OpenAI") Sample.world0
  = ([], inr (Sample.openai_llm "OpenAI")).
Proof. reflexivity. Qed.

Example init_azure_sample :
  LLM.__init__ (Sample.azure_cfg "AZURE" "https://h.example/") Sample.world0
  = ([], inr (Sample.azure_llm "AZURE" "https://h.example/" "https://h.example")).
Proof. reflexivity. Qed.

Example init_ollama_sample :
  LLM.__init__ (Sample.plain_cfg "ollama") Sample.world0
  = ([], inr (Sample.ollama_llm "ollama")).
Proof. reflexivity. Qed.

Example init_foo_sample :
  result (LLM.__init__ (Sample.plain_cfg "foo") Sample.world0)
  = inl (ValueError "不支持的模型类型: foo").
Proof. reflexivity. Qed.

End ConstructorExamples.

(** C1: with a selector that reads [azure] or [azure_openai], the constructor
    raises the configuration error when one of [azure_base_url],
    [azure_deployment_name], [azure_api_key] is absent or empty, its message
    contains the name of every missing setting, and the constructor returns an
    instance when all three are non-empty. *)
Theorem azure_settings_required (cfg : Config.t) (w : World) :
  PyStr.eq_ignore_case (Config.llm_model_type cfg) "azure" = true \/
  PyStr.eq_ignore_case (Config.llm_model_type cfg) "azure_openai" = true ->
  (missing (Config.azure_base_url cfg) \/
   missing (Config.azure_deployment_name cfg) \/
   missing (Config.azure_api_key cfg) ->
   result (LLM.__init__ cfg w) = inl (ValueError LLM.incomplete_msg) /\
   (missing (Config.azure_base_url cfg) ->
    PyStr.contains "azure_base_url" LLM.incomplete_msg = true) /\
   (missing (Config.azure_deployment_name cfg) ->
    PyStr.contains "azure_deployment_name" LLM.incomplete_msg = true) /\
   (missing (Config.azure_api_key cfg) ->
    PyStr.contains "azure_api_key" LLM.incomplete_msg = true))
  /\
  (present (Config.azure_base_url cfg) /\
   present (Config.azure_deployment_name cfg) /\
   present (Config.azure_api_key cfg) ->
   exists self, result (LLM.__init__ cfg w) = inr self).
Proof.
  intros Hsel.
  assert (Hl : PyStr.lower (Config.llm_model_type cfg) = "azure" \/
               PyStr.lower (Config.llm_model_type cfg) = "azure_openai").
  { destruct Hsel as [H | H]; apply eq_ignore_case_lower in H; auto. }
  split.
  - intros Hmiss. split; [now apply init_azure_incomplete |].
    repeat split; intros _; reflexivity.
  - intros (Hb & Hd & Hk). now apply init_azure_complete.
Qed.

Lemma azure_settings_required_witness :
  result (LLM.__init__ (Sample.cfg "azure" (Some "https://h.example") (Some "") (Some "secret"))
            Sample.world0)
  = inl (ValueError LLM.incomplete_msg)
  /\ exists self,
       result (LLM.__init__ (Sample.azure_cfg "azure" "https://h.example") Sample.world0)
       = inr self.
Proof.
  split.
  - apply (azure_settings_required
             (Sample.cfg "azure" (Some "https://h.example") (Some "") (Some "secret"))
             Sample.world0).
    + left. reflexivity.
    + right. left. right. reflexivity.
  - apply (azure_settings_required
             (Sample.azure_cfg "azure" "https://h.example") Sample.world0).
    + left. reflexivity.
    + repeat split; eexists; (split; [reflexivity | discriminate]).
Defined.

Lemma constructed_model (cfg : Config.t) (self : LLM.t) :
  Constructed cfg self ->
  LLM.model self = PyStr.lower (Config.llm_model_type cfg) /\ LLM.config self = cfg.
Proof. intros []; simpl; split; congruence. Qed.

(** The selector [OpenAI] is none of the four listed values, and the
    constructor returns an instance for it. *)
Lemma listed_selectors_not_exhaustive :
  ~ In "OpenAI" supported_selectors /\
  result (LLM.__init__ (Sample.plain_cfg "OpenAI") Sample.world0)
  = inr (Sample.openai_llm "OpenAI").
Proof.
  split; [| reflexivity].
  unfold supported_selectors. simpl. intros [H | [H | [H | [H | []]]]]; discriminate.
Qed.

(** C2, amended: for every selector whose lower-case form is none of [openai],
    [azure], [azure_openai], [ollama], the constructor raises the
    unsupported-backend error and returns no instance. *)
Theorem unsupported_selector_rejected (cfg : Config.t) (w : World) :
  ~ In (PyStr.lower (Config.llm_model_type cfg)) supported_selectors ->
  result (LLM.__init__ cfg w)
  = inl (ValueError (LLM.unsupported_msg (PyStr.lower (Config.llm_model_type cfg))))
  /\ forall self, result (LLM.__init__ cfg w) <> inr self.
Proof.
  intros Hn. rewrite (init_unsupported cfg w Hn). simpl. split; [reflexivity |].
  intros self H. discriminate.
Qed.

Lemma unsupported_selector_rejected_witness :
  result (LLM.__init__ (Sample.plain_cfg "Foo") Sample.world0)
  = inl (ValueError "不支持的模型类型: foo").
Proof.
  apply (unsupported_selector_rejected (Sample.plain_cfg "Foo") Sample.world0).
  unfold supported_selectors. simpl.
  intros [H | [H | [H | [H | []]]]]; discriminate.
Defined.

(** C10: the selector is matched after lowering it.  For a selector that equals
    one of the four names up to letter case, the lowered selector is that name,
    the constructor does not raise the unsupported-backend error, an instance it
    returns has that name as its [model], and the [ollama] and [openai]
    branches return one (the latter when [OpenAI()] does). *)
Theorem selector_case_insensitive (cfg : Config.t) (w : World) (name : string) :
  In name supported_selectors ->
  PyStr.eq_ignore_case (Config.llm_model_type cfg) name = true ->
  PyStr.lower (Config.llm_model_type cfg) = name
  /\ (forall m, result (LLM.__init__ cfg w) <> inl (ValueError (LLM.unsupported_msg m)))
  /\ (forall self, result (LLM.__init__ cfg w) = inr self ->
        LLM.model self = name /\ Constructed cfg self)
  /\ (name = "ollama" -> exists self, result (LLM.__init__ cfg w) = inr self)
  /\ (name = "openai" -> forall c, w_openai_new w = inr c ->
        exists self, result (LLM.__init__ cfg w) = inr self).
Proof.
  intros Hin Heq.
  assert (Hl : PyStr.lower (Config.llm_model_type cfg) = name).
  { rewrite (eq_ignore_case_lower _ _ Heq).
    unfold supported_selectors in Hin. simpl in Hin.
    destruct Hin as [<- | [<- | [<- | [<- | []]]]]; reflexivity. }
  split; [exact Hl |]. split; [| split; [| split]].
  - intros m.
    unfold supported_selectors in Hin. simpl in Hin.
    destruct Hin as [<- | [<- | [<- | [<- | []]]]].
    + unfold LLM.__init__. rewrite Hl. unfold_M. simpl.
      destruct (w_openai_new w); discriminate.
    + destruct (missing_or_present (Config.azure_base_url cfg)) as [Hb | Hb];
        [rewrite init_azure_incomplete by auto;
         intros H; inversion H as [H']; symmetry in H';
         now apply unsupported_msg_not_incomplete in H' |].
      destruct (missing_or_present (Config.azure_deployment_name cfg)) as [Hd | Hd];
        [rewrite init_azure_incomplete by auto;
         intros H; inversion H as [H']; symmetry in H';
         now apply unsupported_msg_not_incomplete in H' |].
      destruct (missing_or_present (Config.azure_api_key cfg)) as [Hk | Hk];
        [rewrite init_azure_incomplete by auto;
         intros H; inversion H as [H']; symmetry in H';
         now apply unsupported_msg_not_incomplete in H' |].
      destruct (init_azure_complete cfg w (or_introl Hl) Hb Hd Hk) as [self ->].
      discriminate.
    + destruct (missing_or_present (Config.azure_base_url cfg)) as [Hb | Hb];
        [rewrite init_azure_incomplete by auto;
         intros H; inversion H as [H']; symmetry in H';
         now apply unsupported_msg_not_incomplete in H' |].
      destruct (missing_or_present (Config.azure_deployment_name cfg)) as [Hd | Hd];
        [rewrite init_azure_incomplete by auto;
         intros H; inversion H as [H']; symmetry in H';
         now apply unsupported_msg_not_incomplete in H' |].
      destruct (missing_or_present (Config.azure_api_key cfg)) as [Hk | Hk];
        [rewrite init_azure_incomplete by auto;
         intros H; inversion H as [H']; symmetry in H';
         now apply unsupported_msg_not_incomplete in H' |].
      destruct (init_azure_complete cfg w (or_intror Hl) Hb Hd Hk) as [self ->].
      discriminate.
    + unfold LLM.__init__. rewrite Hl. discriminate.
  - intros self H. apply init_constructed in H.
    split; [| exact H]. rewrite <- Hl. now apply constructed_model.
  - intros ->. unfold LLM.__init__. rewrite Hl. eexists. reflexivity.
  - intros -> c Hc. unfold LLM.__init__. rewrite Hl. unfold_M. simpl.
    rewrite Hc. eexists. reflexivity.
Qed.

Lemma selector_case_insensitive_witness :
  PyStr.lower "AZURE_OpenAI" = "azure_openai"
  /\ (forall m, result (LLM.__init__ (Sample.azure_cfg "AZURE_OpenAI" "https://h.example")
                          Sample.world0)
                <> inl (ValueError (LLM.unsupported_msg m))).
Proof.
  destruct (@selector_case_insensitive
              (Sample.azure_cfg "AZURE_OpenAI" "https://h.example") Sample.world0
              "azure_openai") as (H1 & H2 & _).
  - unfold supported_selectors. simpl. tauto.
  - reflexivity.
  - split; [exact H1 | exact H2].
Defined.

(** ** [generate_report] *)

Section Requests.

Variables (cfg : Config.t) (self : LLM.t) (w : World).
Variables (system_prompt user_content : string).
Hypothesis Hself : Constructed cfg self.

(** The OpenAI path makes one SDK call. *)
Lemma openai_requests :
  LLM.model self = "openai" ->
  requests_of (trace (LLM.generate_report self system_prompt user_content w))
  = [ChatCreate (Config.openai_model_name cfg)
       (PyList [system_message system_prompt; user_message user_content])].
Proof.
  destruct Hself as [c Hl | m b d k Hl [-> | ->] | Hl]; simpl;
    try discriminate; intros _.
  run_report. unfold requests_of. split_run; reflexivity.
Qed.

(** The Azure path makes one POST, whatever the reply is. *)
Lemma azure_requests (base dep key : string) :
  LLM.model self = "azure" \/ LLM.model self = "azure_openai" ->
  Config.azure_base_url cfg = Some base ->
  Config.azure_deployment_name cfg = Some dep ->
  Config.azure_api_key cfg = Some key ->
  requests_of (trace (LLM.generate_report self system_prompt user_content w))
  = [Post {| requests.url :=
               azure_url_template (PyStr.rstrip_slash base) dep
                 (Py.format_opt (configured_version cfg));
             requests.headers :=
               Some [("Content-Type", PyStr "application/json");
                     ("api-key", PyStr key)];
             requests.json :=
               PyDict [("messages",
                        PyList [system_message system_prompt; user_message user_content]);
                       ("max_tokens", PyInt 4000);
                       ("temperature", PyFloat 0.7);
                       ("top_p", PyInt 1)];
             requests.timeout := Some 60 |}].
Proof.
  destruct Hself as [c Hl | m b d k Hl Hm Eb _ Ed _ Ek _ | Hl]; simpl;
    intros [H | H]; try discriminate; rewrite H;
    intros Hb Hd Hk; rewrite Hb in Eb; rewrite Hd in Ed; rewrite Hk in Ek;
    inversion Eb; inversion Ed; inversion Ek; subst;
    run_report; unfold requests_of, azure_url_template;
    split_run; reflexivity.
Qed.

(** The Ollama path makes one POST, whatever the reply is. *)
Lemma ollama_requests :
  LLM.model self = "ollama" ->
  requests_of (trace (LLM.generate_report self system_prompt user_content w))
  = [Post {| requests.url := Config.ollama_api_url cfg;
             requests.headers := None;
             requests.json :=
               PyDict [("model", PyStr (Config.ollama_model_name cfg));
                       ("messages",
                        PyList [system_message system_prompt; user_message user_content]);
                       ("max_tokens", PyInt 4000);
                       ("temperature", PyFloat 0.7);
                       ("stream", PyBool false)];
             requests.timeout := None |}].
Proof.
  destruct Hself as [c Hl | m b d k Hl [-> | ->] | Hl]; simpl;
    try discriminate; intros _.
  run_report. unfold requests_of. split_run; reflexivity.
Qed.

End Requests.

Lemma constructed_azure_settings (cfg : Config.t) (self : LLM.t) :
  Constructed cfg self ->
  LLM.model self = "azure" \/ LLM.model self = "azure_openai" ->
  exists base dep key,
    Config.azure_base_url cfg = Some base /\
    Config.azure_deployment_name cfg = Some dep /\
    Config.azure_api_key cfg = Some key.
Proof.
  intros [c Hl | m b d k Hl Hm Eb _ Ed _ Ek _ | Hl]; simpl.
  - intros [H | H]; discriminate.
  - intros _. now exists b, d, k.
  - intros [H | H]; discriminate.
Qed.

Lemma constructed_backend (cfg : Config.t) (self : LLM.t) :
  Constructed cfg self ->
  LLM.model self = "openai" \/
  (LLM.model self = "azure" \/ LLM.model self = "azure_openai") \/
  LLM.model self = "ollama".
Proof. intros [c Hl | m b d k Hl Hm | Hl]; simpl; auto. Qed.

(** C3: on every back end [generate_report] sends one request, and the
    messages it carries are the system message with [system_prompt] followed by
    the user message with [user_content], unchanged. *)
Theorem user_content_round_trip (cfg : Config.t) (w0 w : World) (self : LLM.t)
    (system_prompt user_content : string) :
  result (LLM.__init__ cfg w0) = inr self ->
  exists ev,
    requests_of (trace (LLM.generate_report self system_prompt user_content w)) = [ev]
    /\ messages_of ev
       = Some (PyList [PyDict [("role", PyStr "system"); ("content", PyStr system_prompt)];
                       PyDict [("role", PyStr "user"); ("content", PyStr user_content)]]).
Proof.
  intros Hinit. apply init_constructed in Hinit.
  destruct (constructed_backend Hinit) as [Ho | [Ha | Hl]].
  - eexists. split; [now apply openai_requests with (cfg := cfg) |]. reflexivity.
  - destruct (constructed_azure_settings Hinit Ha) as (b & d & k & Hb & Hd & Hk).
    eexists. split; [now apply azure_requests with (cfg := cfg) (base := b)
                                                  (dep := d) (key := k) |].
    reflexivity.
  - eexists. split; [now apply ollama_requests with (cfg := cfg) |]. reflexivity.
Qed.

Lemma user_content_round_trip_witness :
  exists ev,
    requests_of (trace (LLM.generate_report (Sample.ollama_llm "Ollama")
                          "You are a reporter." "# Progress" Sample.world0)) = [ev]
    /\ messages_of ev
       = Some (PyList [PyDict [("role", PyStr "system");
                               ("content", PyStr "You are a reporter.")];
                       PyDict [("role", PyStr "user"); ("content", PyStr "# Progress")]]).
Proof.
  apply (@user_content_round_trip (Sample.plain_cfg "Ollama") Sample.world0
           Sample.world0 (Sample.ollama_llm "Ollama")).
  reflexivity.
Defined.

(** C4: on the Azure back end the JSON body of the request holds the two input
    messages in order and nothing else under [messages], [max_tokens] 4000,
    [temperature] 0.7 and [top_p] 1. *)
Theorem azure_request_body (cfg : Config.t) (w0 w : World) (self : LLM.t)
    (system_prompt user_content : string) :
  result (LLM.__init__ cfg w0) = inr self ->
  LLM.model self = "azure" \/ LLM.model self = "azure_openai" ->
  exists url headers,
    requests_of (trace (LLM.generate_report self system_prompt user_content w))
    = [Post {| requests.url := url;
               requests.headers := headers;
               requests.json :=
                 PyDict [("messages",
                          PyList [system_message system_prompt;
                                  user_message user_content]);
                         ("max_tokens", PyInt 4000);
                         ("temperature", PyFloat 0.7);
                         ("top_p", PyInt 1)];
               requests.timeout := Some 60 |}].
Proof.
  intros Hinit Ha. apply init_constructed in Hinit.
  destruct (constructed_azure_settings Hinit Ha) as (b & d & k & Hb & Hd & Hk).
  do 2 eexists. now apply azure_requests with (cfg := cfg) (base := b) (dep := d) (key := k).
Qed.

Lemma azure_request_body_witness :
  exists url headers,
    requests_of (trace (LLM.generate_report
                          (Sample.azure_llm "azure" "https://h.example" "https://h.example")
                          "S" "U" Sample.world0))
    = [Post {| requests.url := url;
               requests.headers := headers;
               requests.json :=
                 PyDict [("messages", PyList [system_message "S"; user_message "U"]);
                         ("max_tokens", PyInt 4000);
                         ("temperature", PyFloat 0.7);
                         ("top_p", PyInt 1)];
               requests.timeout := Some 60 |}].
Proof.
  apply (@azure_request_body (Sample.azure_cfg "azure" "https://h.example")
           Sample.world0 Sample.world0).
  - reflexivity.
  - left. reflexivity.
Defined.

(** With the base URL configured as [https://h.example/], the POST goes to a
    URL that is not the template over that base URL: the trailing slash is
    gone. *)
Lemma azure_url_drops_trailing_slash :
  result (LLM.__init__ (Sample.azure_cfg "azure" "https://h.example/") Sample.world0)
  = inr (Sample.azure_llm "azure" "https://h.example/" "https://h.example")
  /\ post_urls (trace (LLM.generate_report
                         (Sample.azure_llm "azure" "https://h.example/" "https://h.example")
                         "S" "U" Sample.world0))
     = ["https://h.example/openai/deployments/gpt4/chat/completions?api-version=2023-05-15"]
  /\ azure_url_template "https://h.example/" "gpt4" "2023-05-15"
     = "https://h.example//openai/deployments/gpt4/chat/completions?api-version=2023-05-15"
  /\ post_urls (trace (LLM.generate_report
                         (Sample.azure_llm "azure" "https://h.example/" "https://h.example")
                         "S" "U" Sample.world0))
     <> [azure_url_template "https://h.example/" "gpt4" "2023-05-15"].
Proof.
  split; [reflexivity |]. split; [reflexivity |]. split; [reflexivity |].
  vm_compute. discriminate.
Qed.

(** C9, amended: on the Azure back end every call issues exactly one POST; its
    URL is the template over the configured base URL with trailing slashes
    removed, the configured deployment name and the API version (the
    configured one, [2023-05-15] when the configuration has none), and its
    [api-key] header is the configured key. *)
Theorem azure_request_url (cfg : Config.t) (w0 w : World) (self : LLM.t)
    (system_prompt user_content : string) :
  result (LLM.__init__ cfg w0) = inr self ->
  LLM.model self = "azure" \/ LLM.model self = "azure_openai" ->
  exists base dep key r,
    Config.azure_base_url cfg = Some base /\
    Config.azure_deployment_name cfg = Some dep /\
    Config.azure_api_key cfg = Some key /\
    requests_of (trace (LLM.generate_report self system_prompt user_content w)) = [Post r] /\
    requests.url r
    = azure_url_template (PyStr.rstrip_slash base) dep
        (Py.format_opt (configured_version cfg)) /\
    requests.headers r
    = Some [("Content-Type", PyStr "application/json"); ("api-key", PyStr key)].
Proof.
  intros Hinit Ha. apply init_constructed in Hinit.
  destruct (constructed_azure_settings Hinit Ha) as (b & d & k & Hb & Hd & Hk).
  exists b, d, k. eexists. repeat split; try eassumption.
  - now apply azure_requests with (cfg := cfg) (base := b) (dep := d) (key := k).
  - reflexivity.
  - reflexivity.
Qed.

(** When the configured base URL does not end in a slash, the URL is the
    template over the base URL as configured. *)
Corollary azure_request_url_no_trailing_slash (cfg : Config.t) (w0 w : World)
    (self : LLM.t) (system_prompt user_content prefix : string) (last : ascii) :
  result (LLM.__init__ cfg w0) = inr self ->
  LLM.model self = "azure" \/ LLM.model self = "azure_openai" ->
  Config.azure_base_url cfg = Some (prefix ++ String last "") ->
  last <> "/"%char ->
  exists dep,
    Config.azure_deployment_name cfg = Some dep /\
    post_urls (trace (LLM.generate_report self system_prompt user_content w))
    = [azure_url_template (prefix ++ String last "") dep
         (Py.format_opt (configured_version cfg))].
Proof.
  intros Hinit Ha Hb Hlast. apply init_constructed in Hinit.
  destruct (constructed_azure_settings Hinit Ha) as (b & d & k & Hb' & Hd & Hk).
  rewrite Hb in Hb'. inversion Hb'; subst b.
  exists d. split; [exact Hd |].
  pose proof (@azure_requests cfg self w system_prompt user_content Hinit
                (prefix ++ String last "") d k Ha Hb Hd Hk) as Hreq.
  rewrite (rstrip_slash_append prefix Hlast) in Hreq.
  revert Hreq. unfold requests_of, post_urls.
  generalize (trace (LLM.generate_report self system_prompt user_content w)).
  intros t. induction t as [| ev t IH]; simpl; [discriminate |].
  destruct ev as [lv msg args | model msgs | r]; simpl.
  - exact IH.
  - intros H. inversion H.
  - intros H. inversion H as [[Hr Ht]]. f_equal.
    clear - Ht. induction t as [| ev t IH]; [reflexivity |].
    destruct ev; simpl in *; try discriminate; auto.
Qed.

Lemma azure_request_url_witness :
  exists base dep key r,
    Config.azure_base_url (Sample.azure_cfg "azure" "https://h.example//") = Some base /\
    Config.azure_deployment_name (Sample.azure_cfg "azure" "https://h.example//") = Some dep /\
    Config.azure_api_key (Sample.azure_cfg "azure" "https://h.example//") = Some key /\
    requests_of (trace (LLM.generate_report
                          (Sample.azure_llm "azure" "https://h.example//" "https://h.example")
                          "S" "U" Sample.world0)) = [Post r] /\
    requests.url r
    = azure_url_template (PyStr.rstrip_slash base) dep
        (Py.format_opt (configured_version (Sample.azure_cfg "azure" "https://h.example//"))) /\
    requests.headers r
    = Some [("Content-Type", PyStr "application/json"); ("api-key", PyStr key)].
Proof.
  apply (@azure_request_url (Sample.azure_cfg "azure" "https://h.example//")
           Sample.world0 Sample.world0).
  - reflexivity.
  - left. reflexivity.
Defined.

(** ** What [generate_report] returns *)

Section Replies.

Variables (self : LLM.t) (messages : pyval) (w : World).

(** The Azure and the Ollama path return only a value that counts as true:
    never [None], never an empty string. *)
Lemma azure_returns_truthy (v : pyval) :
  result (LLM._generate_report_azure self messages w) = inr v ->
  Py.truthy v = true.
Proof.
  run_report. split_run; intros H; try discriminate; inversion H; subst;
    assumption.
Qed.

Lemma ollama_returns_truthy (v : pyval) :
  result (LLM._generate_report_ollama self messages w) = inr v ->
  Py.truthy v = true.
Proof.
  run_report. split_run; intros H; try discriminate; inversion H; subst;
    assumption.
Qed.

(** The OpenAI path returns the content of the first choice as it is. *)
Lemma openai_returns_content (c : OpenAI.Client) (r : OpenAI.ChatCompletion)
    (choice : OpenAI.Choice) (rest : list OpenAI.Choice) :
  LLM.client self = Some c ->
  w_chat_create w c (Config.openai_model_name (LLM.config self)) messages = inr r ->
  OpenAI.choices r = choice :: rest ->
  result (LLM._generate_report_openai self messages w)
  = inr (Py.of_opt (OpenAI.content (OpenAI.message choice))).
Proof.
  intros Hc Hw Hr. run_report. rewrite Hc. simpl. rewrite Hw. simpl.
  rewrite Hr. reflexivity.
Qed.

End Replies.

(** C5 fails on the OpenAI path: with the selector [openai] and an SDK reply
    whose first choice has [content] [None], [generate_report] returns [None];
    with [content] the empty string it returns the empty string. *)
Theorem openai_returns_empty_content :
  result (LLM.__init__ (Sample.plain_cfg "openai") Sample.world0)
  = inr (Sample.openai_llm "openai")
  /\ result (LLM.generate_report (Sample.openai_llm "openai") "S" "U"
               (Sample.world (Sample.completion None) (Sample.response 200 (PyDict []))))
     = inr PyNone
  /\ result (LLM.generate_report (Sample.openai_llm "openai") "S" "U"
               (Sample.world (Sample.completion (Some "")) (Sample.response 200 (PyDict []))))
     = inr (PyStr "").
Proof. repeat split. Qed.

(** C8: on the OpenAI back end, when the SDK answers with a completion whose
    first choice has message content [r], [generate_report] returns [r]. *)
Theorem openai_returns_first_choice (cfg : Config.t) (w0 w : World) (self : LLM.t)
    (system_prompt user_content r : string)
    (completion : OpenAI.ChatCompletion) (rest : list OpenAI.Choice) :
  result (LLM.__init__ cfg w0) = inr self ->
  LLM.model self = "openai" ->
  (forall c model messages, w_chat_create w c model messages = inr completion) ->
  OpenAI.choices completion
  = {| OpenAI.message := {| OpenAI.content := Some r |} |} :: rest ->
  result (LLM.generate_report self system_prompt user_content w) = inr (PyStr r).
Proof.
  intros Hinit Hm Hw Hc. apply init_constructed in Hinit.
  destruct Hinit as [c Hl | m b d k Hl [-> | ->] | Hl]; simpl in Hm;
    try discriminate.
  unfold LLM.generate_report. simpl.
  match goal with
  | |- result (LLM._generate_report_openai ?s ?m w) = _ =>
      rewrite (@openai_returns_content s m w c completion _ rest
                 eq_refl (Hw _ _ _) Hc)
  end.
  reflexivity.
Qed.

Lemma openai_returns_first_choice_witness :
  result (LLM.generate_report (Sample.openai_llm "openai") "S" "U" Sample.world0)
  = inr (PyStr "R1").
Proof.
  apply (@openai_returns_first_choice (Sample.plain_cfg "openai") Sample.world0
           Sample.world0 (Sample.openai_llm "openai") "S" "U" "R1"
           (Sample.completion (Some "R1")) []).
  - reflexivity.
  - reflexivity.
  - intros c model messages. reflexivity.
  - reflexivity.
Defined.

(** C7: on the Ollama back end, a reply with the JSON body
    [{"message":{"content":"R2"}}] makes [generate_report] return ["R2"], and a
    reply with the body [{"message":{}}] makes it raise the error for an
    invalid reply structure. *)
Theorem ollama_reply (cfg : Config.t) (w0 w : World) (self : LLM.t)
    (system_prompt user_content : string) (resp : requests.Response) :
  result (LLM.__init__ cfg w0) = inr self ->
  LLM.model self = "ollama" ->
  (forall r, w_post w r = inr resp) ->
  (requests.response_json resp
   = inr (PyDict [("message", PyDict [("content", PyStr "R2")])]) ->
   result (LLM.generate_report self system_prompt user_content w) = inr (PyStr "R2"))
  /\
  (requests.response_json resp = inr (PyDict [("message", PyDict [])]) ->
   result (LLM.generate_report self system_prompt user_content w)
   = inl (ValueError "Ollama API 返回的响应结构无效")).
Proof.
  intros Hinit Hm Hw. apply init_constructed in Hinit.
  destruct Hinit as [c Hl | m b d k Hl [-> | ->] | Hl]; simpl in Hm;
    try discriminate.
  split; intros Hj; run_report; rewrite Hw; simpl;
    unfold response_json; rewrite Hj; reflexivity.
Qed.

Lemma ollama_reply_witness :
  result (LLM.generate_report (Sample.ollama_llm "ollama") "S" "U"
            (Sample.world (Sample.completion None)
               (Sample.response 200 (PyDict [("message", PyDict [("content", PyStr "R2")])]))))
  = inr (PyStr "R2")
  /\ result (LLM.generate_report (Sample.ollama_llm "ollama") "S" "U"
               (Sample.world (Sample.completion None)
                  (Sample.response 200 (PyDict [("message", PyDict [])]))))
     = inl (ValueError "Ollama API 返回的响应结构无效").
Proof.
  split.
  - apply (@ollama_reply (Sample.plain_cfg "ollama") Sample.world0 _
             (Sample.ollama_llm "ollama") "S" "U"
             (Sample.response 200 (PyDict [("message", PyDict [("content", PyStr "R2")])]))).
    + reflexivity.
    + reflexivity.
    + intros r. reflexivity.
    + reflexivity.
  - apply (@ollama_reply (Sample.plain_cfg "ollama") Sample.world0 _
             (Sample.ollama_llm "ollama") "S" "U"
             (Sample.response 200 (PyDict [("message", PyDict [])]))).
    + reflexivity.
    + reflexivity.
    + intros r. reflexivity.
    + reflexivity.
Defined.

Lemma raise_for_status_2xx (resp : requests.Response) :
  200 <= requests.status_code resp < 300 ->
  requests.raise_for_status resp = inr tt.
Proof.
  intros H. unfold requests.raise_for_status.
  destruct (Z.leb_spec 400 (requests.status_code resp)); [lia |].
  destruct (Z.leb_spec 500 (requests.status_code resp)); [lia |].
  reflexivity.
Qed.

(** C6: on the Azure back end, after a 2xx reply whose JSON object has no
    [choices] (absent, [null] or an empty list), [generate_report] raises the
    missing-choices error; when the first choice has no message content it
    raises the extraction error; and it does not return an empty string. *)
Theorem azure_reply_without_content (cfg : Config.t) (w0 w : World) (self : LLM.t)
    (system_prompt user_content : string) (resp : requests.Response)
    (d : list (string * pyval)) :
  result (LLM.__init__ cfg w0) = inr self ->
  LLM.model self = "azure" \/ LLM.model self = "azure_openai" ->
  (forall r, w_post w r = inr resp) ->
  200 <= requests.status_code resp < 300 ->
  requests.response_json resp = inr (PyDict d) ->
  (no_choices d ->
   result (LLM.generate_report self system_prompt user_content w)
   = inl (ValueError "Azure OpenAI response missing choices"))
  /\
  (forall choice rest,
     Py.lookup "choices" d = Some (PyList (PyDict choice :: rest)) ->
     no_message_content choice ->
     result (LLM.generate_report self system_prompt user_content w)
     = inl (ValueError "Cannot extract text from Azure OpenAI response"))
  /\
  result (LLM.generate_report self system_prompt user_content w) <> inr (PyStr "").
Proof.
  intros Hinit Hm Hw Hst Hj. apply init_constructed in Hinit.
  assert (Hrun : result (LLM.generate_report self system_prompt user_content w)
                 = result (LLM._generate_report_azure self
                             (PyList [system_message system_prompt;
                                      user_message user_content]) w)).
  { unfold LLM.generate_report. destruct Hm as [-> | ->]; reflexivity. }
  rewrite Hrun. clear Hrun.
  split; [| split].
  - intros Hno.
    destruct Hinit as [c Hl | m b dn k Hl Hm' | Hl]; simpl in Hm;
      [destruct Hm; discriminate | | destruct Hm; discriminate].
    run_report. rewrite Hw. simpl. rewrite (raise_for_status_2xx resp Hst). simpl.
    unfold response_json. rewrite Hj. simpl.
    destruct Hno as [-> | [-> | ->]]; reflexivity.
  - intros choice rest Hch Hno.
    destruct Hinit as [c Hl | m b dn k Hl Hm' | Hl]; simpl in Hm;
      [destruct Hm; discriminate | | destruct Hm; discriminate].
    run_report. rewrite Hw. simpl. rewrite (raise_for_status_2xx resp Hst). simpl.
    unfold response_json. rewrite Hj. simpl. rewrite Hch. simpl.
    destruct Hno as [-> | [-> | (m' & -> & Hc)]]; try reflexivity.
    destruct m' as [| p m'']; [reflexivity |].
    remember (p :: m'') as m' eqn:Em. simpl.
    assert (Hor : Py.or (PyDict m') (PyDict []) = PyDict m') by (subst; reflexivity).
    rewrite Hor. unfold py_get.
    destruct Hc as [-> | [-> | ->]]; reflexivity.
  - intros H. apply azure_returns_truthy in H. discriminate.
Qed.

Lemma azure_reply_without_content_witness :
  result (LLM.generate_report
            (Sample.azure_llm "azure" "https://h.example" "https://h.example") "S" "U"
            (Sample.world (Sample.completion None)
               (Sample.response 200 (PyDict [("choices", PyList [])]))))
  = inl (ValueError "Azure OpenAI response missing choices")
  /\ result (LLM.generate_report
               (Sample.azure_llm "azure" "https://h.example" "https://h.example") "S" "U"
               (Sample.world (Sample.completion None)
                  (Sample.response 200
                     (PyDict [("choices",
                               PyList [PyDict [("message",
                                                PyDict [("role", PyStr "assistant")])]])]))))
     = inl (ValueError "Cannot extract text from Azure OpenAI response").
Proof.
  split.
  - refine (proj1 (@azure_reply_without_content
                     (Sample.azure_cfg "azure" "https://h.example") Sample.world0 _
                     (Sample.azure_llm "azure" "https://h.example" "https://h.example")
                     "S" "U"
                     (Sample.response 200 (PyDict [("choices", PyList [])]))
                     [("choices", PyList [])] _ _ _ _ _) _).
    + reflexivity.
    + left. reflexivity.
    + intros r. reflexivity.
    + simpl. lia.
    + reflexivity.
    + right. right. reflexivity.
  - refine (proj1 (proj2 (@azure_reply_without_content
                     (Sample.azure_cfg "azure" "https://h.example") Sample.world0 _
                     (Sample.azure_llm "azure" "https://h.example" "https://h.example")
                     "S" "U"
                     (Sample.response 200
                        (PyDict [("choices",
                                  PyList [PyDict [("message",
                                                   PyDict [("role", PyStr "assistant")])]])]))
                     _ _ _ _ _ _))
                  [("message", PyDict [("role", PyStr "assistant")])] [] _ _).
    + reflexivity.
    + left. reflexivity.
    + intros r. reflexivity.
    + simpl. lia.
    + reflexivity.
    + reflexivity.
    + right. right. eexists. split; [reflexivity |]. left. reflexivity.
Defined.



(** * Further properties of [src/llm.py] *)

Lemma azure_dispatch (self : LLM.t) (sp uc : string) (w : World) :
  LLM.model self = "azure" \/ LLM.model self = "azure_openai" ->
  LLM.generate_report self sp uc w
  = LLM._generate_report_azure self (PyList [system_message sp; user_message uc]) w.
Proof.
  intros [H | H]; unfold LLM.generate_report; rewrite H; reflexivity.
Qed.

Lemma ollama_dispatch (self : LLM.t) (sp uc : string) (w : World) :
  LLM.model self = "ollama" ->
  LLM.generate_report self sp uc w
  = LLM._generate_report_ollama self (PyList [system_message sp; user_message uc]) w.
Proof.
  intros H; unfold LLM.generate_report; rewrite H; reflexivity.
Qed.

(** X1: on the Azure back end a reply with a status from 400 to 599 makes
    [generate_report] raise the HTTP error, whatever the body of the reply
    is. *)
Theorem azure_http_error_status (cfg : Config.t) (w0 w : World) (self : LLM.t)
    (system_prompt user_content : string) (resp : requests.Response) :
  result (LLM.__init__ cfg w0) = inr self ->
  LLM.model self = "azure" \/ LLM.model self = "azure_openai" ->
  (forall r, w_post w r = inr resp) ->
  400 <= requests.status_code resp < 600 ->
  exists kind,
    (kind = " Client Error: " \/ kind = " Server Error: ") /\
    result (LLM.generate_report self system_prompt user_content w)
    = inl (HTTPError (PyStr.of_Z (requests.status_code resp) ++ kind
                      ++ requests.reason resp ++ " for url: "
                      ++ requests.response_url resp)).
Proof.
  intros Hinit Hm Hw Hst. apply init_constructed in Hinit.
  rewrite (azure_dispatch self system_prompt user_content w Hm).
  destruct Hinit as [c Hl | m b dn k Hl Hm' | Hl]; simpl in Hm;
    [destruct Hm; discriminate | | destruct Hm; discriminate].
  run_report. rewrite Hw. simpl. unfold requests.raise_for_status.
  destruct (Z.leb_spec 400 (requests.status_code resp)); [| lia].
  destruct (Z.ltb_spec (requests.status_code resp) 500); simpl.
  - exists " Client Error: ". split; [now left | reflexivity].
  - destruct (Z.leb_spec 500 (requests.status_code resp)); [| lia].
    destruct (Z.ltb_spec (requests.status_code resp) 600); [| lia]. simpl.
    exists " Server Error: ". split; [now right | reflexivity].
Qed.

Lemma azure_http_error_status_witness :
  exists kind,
    (kind = " Client Error: " \/ kind = " Server Error: ") /\
    result (LLM.generate_report
              (Sample.azure_llm "azure" "https://h.example" "https://h.example")
              "S" "U"
              (SampleEnv.world_post 503
                 (PyDict [("choices",
                           PyList [PyDict [("message",
                                            PyDict [("content", PyStr "R")])]])])))
    = inl (HTTPError ("503" ++ kind ++ "" ++ " for url: " ++ "")).
Proof.
  apply (@azure_http_error_status (Sample.azure_cfg "azure" "https://h.example")
           Sample.world0 _
           (Sample.azure_llm "azure" "https://h.example" "https://h.example") "S" "U"
           (Sample.response 503
              (PyDict [("choices",
                        PyList [PyDict [("message",
                                         PyDict [("content", PyStr "R")])]])]))).
  - reflexivity.
  - left. reflexivity.
  - intros r. reflexivity.
  - simpl. lia.
Defined.

(** X2: on the Ollama back end the outcome of a call depends on the JSON body
    of the reply only: two replies with the same body and different status
    lines give the same events and the same result. *)
Theorem ollama_status_ignored (cfg : Config.t) (w0 w w' : World) (self : LLM.t)
    (system_prompt user_content : string) (resp resp' : requests.Response) :
  result (LLM.__init__ cfg w0) = inr self ->
  LLM.model self = "ollama" ->
  (forall r, w_post w r = inr resp) ->
  (forall r, w_post w' r = inr resp') ->
  requests.response_json resp = requests.response_json resp' ->
  LLM.generate_report self system_prompt user_content w
  = LLM.generate_report self system_prompt user_content w'.
Proof.
  intros Hinit Hm Hw Hw' Hj. apply init_constructed in Hinit.
  rewrite !(ollama_dispatch self system_prompt user_content _ Hm).
  destruct Hinit as [c Hl | m b dn k Hl [-> | ->] | Hl]; simpl in Hm;
    try discriminate.
  run_report. rewrite Hw, Hw'. simpl. unfold response_json. rewrite Hj.
  split_run; reflexivity.
Qed.

Lemma ollama_status_ignored_witness :
  LLM.generate_report (Sample.ollama_llm "ollama") "S" "U"
    (SampleEnv.world_post 200 (PyDict [("message", PyDict [("content", PyStr "R2")])]))
  = LLM.generate_report (Sample.ollama_llm "ollama") "S" "U"
      (SampleEnv.world_post 500 (PyDict [("message", PyDict [("content", PyStr "R2")])])).
Proof.
  apply (@ollama_status_ignored (Sample.plain_cfg "ollama") Sample.world0 _ _
           (Sample.ollama_llm "ollama") "S" "U"
           (Sample.response 200 (PyDict [("message", PyDict [("content", PyStr "R2")])]))
           (Sample.response 500 (PyDict [("message", PyDict [("content", PyStr "R2")])]))).
  - reflexivity.
  - reflexivity.
  - intros r. reflexivity.
  - intros r. reflexivity.
  - reflexivity.
Defined.

(** X3: when the call to the back end itself fails, [generate_report] raises
    that failure with its message unchanged: the SDK's error on the OpenAI
    path, the transport error of [requests.post] on the other two. *)
Theorem backend_failure_propagates (cfg : Config.t) (w0 w : World) (self : LLM.t)
    (system_prompt user_content m : string) :
  result (LLM.__init__ cfg w0) = inr self ->
  (LLM.model self = "openai" ->
   (forall c model messages, w_chat_create w c model messages = inl m) ->
   result (LLM.generate_report self system_prompt user_content w)
   = inl (OpenAIError m))
  /\
  (LLM.model self <> "openai" ->
   (forall r, w_post w r = inl m) ->
   result (LLM.generate_report self system_prompt user_content w)
   = inl (RequestException m)).
Proof.
  intros Hinit. apply init_constructed in Hinit.
  destruct Hinit as [c Hl | mo b dn k Hl [-> | ->] | Hl]; simpl; split;
    intros Hm Hw; try discriminate; try (exfalso; now apply Hm);
    run_report; rewrite Hw; reflexivity.
Qed.

Lemma backend_failure_propagates_witness :
  result (LLM.generate_report (Sample.openai_llm "openai") "S" "U"
            (SampleEnv.failing_world "connection refused"))
  = inl (OpenAIError "connection refused")
  /\ result (LLM.generate_report (Sample.ollama_llm "ollama") "S" "U"
               (SampleEnv.failing_world "connection refused"))
     = inl (RequestException "connection refused").
Proof.
  split.
  - apply (@backend_failure_propagates (Sample.plain_cfg "openai") Sample.world0
             (SampleEnv.failing_world "connection refused")
             (Sample.openai_llm "openai") "S" "U" "connection refused").
    + reflexivity.
    + reflexivity.
    + intros c model messages. reflexivity.
  - apply (@backend_failure_propagates (Sample.plain_cfg "ollama") Sample.world0
             (SampleEnv.failing_world "connection refused")
             (Sample.ollama_llm "ollama") "S" "U" "connection refused").
    + reflexivity.
    + discriminate.
    + intros r. reflexivity.
Defined.

(** X4: a call that raises ends its events with one ERROR record that carries
    [str(e)] of the exception raised, and a call that returns has written no
    ERROR record. *)
Theorem failure_is_logged (cfg : Config.t) (w0 w : World) (self : LLM.t)
    (system_prompt user_content : string) :
  result (LLM.__init__ cfg w0) = inr self ->
  (forall e,
     result (LLM.generate_report self system_prompt user_content w) = inl e ->
     last (trace (LLM.generate_report self system_prompt user_content w))
          (Log INFO "" [])
     = Log ERROR (error_prefix (LLM.model self) ++ str_exn e) [])
  /\
  (forall v,
     result (LLM.generate_report self system_prompt user_content w) = inr v ->
     existsb is_error_log
       (trace (LLM.generate_report self system_prompt user_content w)) = false).
Proof.
  intros Hinit. apply init_constructed in Hinit.
  destruct Hinit as [c Hl | mo b dn k Hl [-> | ->] | Hl]; split; intros x;
    run_report; split_run; intros Hres; try discriminate; inversion Hres; subst;
    reflexivity.
Qed.

Lemma failure_is_logged_witness :
  last (trace (LLM.generate_report (Sample.ollama_llm "ollama") "S" "U"
                 (SampleEnv.world_post 200 (PyDict []))))
       (Log INFO "" [])
  = Log ERROR "生成报告时发生错误：Ollama API 返回的响应结构无效" [].
Proof.
  apply (proj1 (@failure_is_logged (Sample.plain_cfg "ollama") Sample.world0
                  (SampleEnv.world_post 200 (PyDict []))
                  (Sample.ollama_llm "ollama") "S" "U" eq_refl)
               (ValueError "Ollama API 返回的响应结构无效")).
  reflexivity.
Defined.

(** X5: the constructor sends nothing to a back end, and writes no log record
    when it returns an instance. *)
Theorem constructor_sends_nothing (cfg : Config.t) (w : World) :
  requests_of (trace (LLM.__init__ cfg w)) = []
  /\ (forall self, result (LLM.__init__ cfg w) = inr self ->
                   trace (LLM.__init__ cfg w) = []).
Proof.
  unfold LLM.__init__. unfold_M.
  destruct (String.eqb _ "openai"); simpl.
  - destruct (w_openai_new w); simpl; split; auto.
  - destruct (_ || _)%bool; simpl.
    + destruct (_ || _)%bool; simpl.
      * split; [reflexivity |]. intros self H; discriminate.
      * destruct (Config.azure_base_url cfg); simpl; split; auto.
    + destruct (String.eqb _ "ollama"); simpl; split; auto.
      intros self H; discriminate.
Qed.

(** The library calls raise their own exceptions, never [ValueError]. *)
Lemma raise_for_status_not_value (r : requests.Response) (s : string) :
  requests.raise_for_status r = inl (ValueError s) -> False.
Proof.
  unfold requests.raise_for_status.
  destruct (_ && _)%bool; [discriminate |]. destruct (_ && _)%bool; discriminate.
Qed.

Lemma response_json_not_value (r : requests.Response) (s : string) :
  response_json r = inl (ValueError s) -> False.
Proof. unfold response_json. destruct (requests.response_json r); discriminate. Qed.

Lemma py_get_not_value (v : pyval) (k : string) (default : pyval) (s : string) :
  py_get v k default = inl (ValueError s) -> False.
Proof. destruct v; discriminate. Qed.

Lemma py_item0_not_value (v : pyval) (s : string) :
  py_item0 v = inl (ValueError s) -> False.
Proof.
  destruct v as [| | | | x | l |]; simpl; try discriminate.
  - destruct (String.eqb x ""); discriminate.
  - destruct l; discriminate.
Qed.

(** X6: for an instance the constructor returned, [generate_report] never
    raises the unsupported-model error: the last branch of its dispatch is
    not reached. *)
Theorem dispatch_finds_backend (cfg : Config.t) (w0 w : World) (self : LLM.t)
    (system_prompt user_content : string) :
  result (LLM.__init__ cfg w0) = inr self ->
  forall m,
    result (LLM.generate_report self system_prompt user_content w)
    <> inl (ValueError (LLM.unsupported_msg m)).
Proof.
  intros Hinit m. apply init_constructed in Hinit.
  destruct Hinit as [c Hl | mo b dn k Hl [-> | ->] | Hl];
    run_report; split_run; intros Hres; try discriminate;
    unfold LLM.unsupported_msg in Hres; simpl in Hres; try discriminate;
    inversion Hres; subst;
    match goal with
    | H : requests.raise_for_status _ = inl (ValueError _) |- _ =>
        exact (False_ind _ (raise_for_status_not_value _ H))
    | H : response_json _ = inl (ValueError _) |- _ =>
        exact (False_ind _ (response_json_not_value _ H))
    | H : py_get _ _ _ = inl (ValueError _) |- _ =>
        exact (False_ind _ (py_get_not_value _ _ _ H))
    | H : py_item0 _ = inl (ValueError _) |- _ =>
        exact (False_ind _ (py_item0_not_value _ H))
    end.
Qed.

Lemma dispatch_finds_backend_witness :
  result (LLM.generate_report (Sample.ollama_llm "ollama") "S" "U"
            (SampleEnv.world_post 200 (PyDict [])))
  <> inl (ValueError (LLM.unsupported_msg "ollama")).
Proof.
  apply (@dispatch_finds_backend (Sample.plain_cfg "ollama") Sample.world0
           (SampleEnv.world_post 200 (PyDict [])) (Sample.ollama_llm "ollama")
           "S" "U" eq_refl "ollama").
Defined.

(** X7: on the Azure back end, after a 2xx reply whose first choice has a
    message with content that counts as true, [generate_report] returns that
    content as it is; the other choices are not looked at. *)
Theorem azure_returns_first_choice (cfg : Config.t) (w0 w : World) (self : LLM.t)
    (system_prompt user_content : string) (resp : requests.Response)
    (d choice m : list (string * pyval)) (rest : list pyval) (v : pyval) :
  result (LLM.__init__ cfg w0) = inr self ->
  LLM.model self = "azure" \/ LLM.model self = "azure_openai" ->
  (forall r, w_post w r = inr resp) ->
  200 <= requests.status_code resp < 300 ->
  requests.response_json resp = inr (PyDict d) ->
  Py.lookup "choices" d = Some (PyList (PyDict choice :: rest)) ->
  Py.lookup "message" choice = Some (PyDict m) ->
  Py.lookup "content" m = Some v ->
  Py.truthy v = true ->
  result (LLM.generate_report self system_prompt user_content w) = inr v.
Proof.
  intros Hinit Hm Hw Hst Hj Hch Hmsg Hc Hv. apply init_constructed in Hinit.
  rewrite (azure_dispatch self system_prompt user_content w Hm).
  destruct Hinit as [c Hl | mo b dn k Hl Hm' | Hl]; simpl in Hm;
    [destruct Hm; discriminate | | destruct Hm; discriminate].
  run_report. rewrite Hw. simpl. rewrite (raise_for_status_2xx resp Hst). simpl.
  unfold response_json. rewrite Hj. simpl. rewrite Hch. simpl. rewrite Hmsg.
  assert (Hor : Py.or (PyDict m) (PyDict []) = PyDict m).
  { destruct m; [discriminate | reflexivity]. }
  rewrite Hor. unfold py_get. rewrite Hc. simpl. rewrite Hv. reflexivity.
Qed.

Lemma azure_returns_first_choice_witness :
  result (LLM.generate_report
            (Sample.azure_llm "azure" "https://h.example" "https://h.example")
            "S" "U"
            (SampleEnv.world_post 200
               (PyDict [("choices",
                         PyList [PyDict [("message",
                                          PyDict [("role", PyStr "assistant");
                                                  ("content", PyStr "R3")])];
                                 PyInt 7])])))
  = inr (PyStr "R3").
Proof.
  apply (@azure_returns_first_choice
           (Sample.azure_cfg "azure" "https://h.example") Sample.world0 _
           (Sample.azure_llm "azure" "https://h.example" "https://h.example")
           "S" "U"
           (Sample.response 200
              (PyDict [("choices",
                        PyList [PyDict [("message",
                                         PyDict [("role", PyStr "assistant");
                                                 ("content", PyStr "R3")])];
                                PyInt 7])]))
           [("choices",
             PyList [PyDict [("message",
                              PyDict [("role", PyStr "assistant");
                                      ("content", PyStr "R3")])];
                     PyInt 7])]
           [("message", PyDict [("role", PyStr "assistant"); ("content", PyStr "R3")])]
           [("role", PyStr "assistant"); ("content", PyStr "R3")]
           [PyInt 7]).
  - reflexivity.
  - left. reflexivity.
  - intros r. reflexivity.
  - simpl. lia.
  - reflexivity.
  - reflexivity.
  - reflexivity.
  - reflexivity.
  - reflexivity.
Defined.

(** X8: on the Ollama back end a reply object without [message] raises the
    invalid-structure [ValueError], while a reply whose [message] is [null]
    raises [AttributeError]: the default of [get] stands in for an absent key
    only. *)
Theorem ollama_message_absent_or_null (cfg : Config.t) (w0 w : World)
    (self : LLM.t) (system_prompt user_content : string)
    (resp : requests.Response) (d : list (string * pyval)) :
  result (LLM.__init__ cfg w0) = inr self ->
  LLM.model self = "ollama" ->
  (forall r, w_post w r = inr resp) ->
  requests.response_json resp = inr (PyDict d) ->
  (Py.lookup "message" d = None ->
   result (LLM.generate_report self system_prompt user_content w)
   = inl (ValueError "Ollama API 返回的响应结构无效"))
  /\
  (Py.lookup "message" d = Some PyNone ->
   result (LLM.generate_report self system_prompt user_content w)
   = inl (AttributeError "'NoneType' object has no attribute 'get'")).
Proof.
  intros Hinit Hm Hw Hj. apply init_constructed in Hinit.
  rewrite (ollama_dispatch self system_prompt user_content w Hm).
  destruct Hinit as [c Hl | mo b dn k Hl [-> | ->] | Hl]; simpl in Hm;
    try discriminate.
  split; intros Hmsg; run_report; rewrite Hw; simpl; unfold response_json;
    rewrite Hj; simpl; rewrite Hmsg; reflexivity.
Qed.

Lemma ollama_message_absent_or_null_witness :
  result (LLM.generate_report (Sample.ollama_llm "ollama") "S" "U"
            (SampleEnv.world_post 200 (PyDict [("error", PyStr "model not found")])))
  = inl (ValueError "Ollama API 返回的响应结构无效")
  /\ result (LLM.generate_report (Sample.ollama_llm "ollama") "S" "U"
               (SampleEnv.world_post 200 (PyDict [("message", PyNone)])))
     = inl (AttributeError "'NoneType' object has no attribute 'get'").
Proof.
  split.
  - apply (@ollama_message_absent_or_null (Sample.plain_cfg "ollama") Sample.world0 _
             (Sample.ollama_llm "ollama") "S" "U"
             (Sample.response 200 (PyDict [("error", PyStr "model not found")]))
             [("error", PyStr "model not found")]);
      reflexivity.
  - apply (@ollama_message_absent_or_null (Sample.plain_cfg "ollama") Sample.world0 _
             (Sample.ollama_llm "ollama") "S" "U"
             (Sample.response 200 (PyDict [("message", PyNone)]))
             [("message", PyNone)]);
      reflexivity.
Defined.

(** X9: on the Ollama back end each call makes one POST to the configured
    [ollama_api_url], without headers or timeout of its own, whose JSON body
    holds the configured model name, the two messages, [max_tokens] 4000,
    [temperature] 0.7 and [stream] false. *)
Theorem ollama_request (cfg : Config.t) (w0 w : World) (self : LLM.t)
    (system_prompt user_content : string) :
  result (LLM.__init__ cfg w0) = inr self ->
  LLM.model self = "ollama" ->
  requests_of (trace (LLM.generate_report self system_prompt user_content w))
  = [Post {| requests.url := Config.ollama_api_url cfg;
             requests.headers := None;
             requests.json :=
               PyDict [("model", PyStr (Config.ollama_model_name cfg));
                       ("messages",
                        PyList [system_message system_prompt;
                                user_message user_content]);
                       ("max_tokens", PyInt 4000);
                       ("temperature", PyFloat 0.7);
                       ("stream", PyBool false)];
             requests.timeout := None |}].
Proof.
  intros Hinit Hm. apply init_constructed in Hinit.
  now apply ollama_requests.
Qed.

Lemma ollama_request_witness :
  requests_of (trace (LLM.generate_report (Sample.ollama_llm "ollama") "S" "U"
                        Sample.world0))
  = [Post {| requests.url := "http://localhost:11434/api/chat";
             requests.headers := None;
             requests.json :=
               PyDict [("model", PyStr "llama3");
                       ("messages", PyList [system_message "S"; user_message "U"]);
                       ("max_tokens", PyInt 4000);
                       ("temperature", PyFloat 0.7);
                       ("stream", PyBool false)];
             requests.timeout := None |}].
Proof.
  apply (@ollama_request (Sample.plain_cfg "ollama") Sample.world0 Sample.world0
           (Sample.ollama_llm "ollama") "S" "U").
  - reflexivity.
  - reflexivity.
Defined.

(** X10: on the OpenAI back end each call makes one SDK call, with the
    configured [openai_model_name] as the model; when the reply has no
    choices the call raises [IndexError]. *)
Theorem openai_request (cfg : Config.t) (w0 w : World) (self : LLM.t)
    (system_prompt user_content : string) :
  result (LLM.__init__ cfg w0) = inr self ->
  LLM.model self = "openai" ->
  requests_of (trace (LLM.generate_report self system_prompt user_content w))
  = [ChatCreate (Config.openai_model_name cfg)
       (PyList [system_message system_prompt; user_message user_content])]
  /\
  (forall completion,
     (forall c model messages, w_chat_create w c model messages = inr completion) ->
     OpenAI.choices completion = [] ->
     result (LLM.generate_report self system_prompt user_content w)
     = inl (IndexError "list index out of range")).
Proof.
  intros Hinit Hm. apply init_constructed in Hinit. split.
  - now apply openai_requests.
  - intros completion Hw Hc.
    destruct Hinit as [c Hl | mo b dn k Hl [-> | ->] | Hl]; simpl in Hm;
      try discriminate.
    run_report. rewrite Hw. simpl. rewrite Hc. reflexivity.
Qed.

Lemma openai_request_witness :
  requests_of (trace (LLM.generate_report (Sample.openai_llm "openai") "S" "U"
                        Sample.world0))
  = [ChatCreate "gpt-4o-mini" (PyList [system_message "S"; user_message "U"])].
Proof.
  apply (@openai_request (Sample.plain_cfg "openai") Sample.world0 Sample.world0
           (Sample.openai_llm "openai") "S" "U").
  - reflexivity.
  - reflexivity.
Defined.

Lemma rstrip_slash_slashes_only (n : nat) : PyStr.rstrip_slash (slashes n) = "".
Proof. induction n as [| n IH]; simpl; [reflexivity | now rewrite IH]. Qed.

(** Trailing slashes do not change what [rstrip('/')] returns. *)
Lemma rstrip_slash_slashes (s : string) (n : nat) :
  PyStr.rstrip_slash (s ++ slashes n) = PyStr.rstrip_slash s.
Proof.
  induction s as [| c s IH]; simpl.
  - apply rstrip_slash_slashes_only.
  - now rewrite IH.
Qed.

Lemma post_urls_of_requests (t : list event) (r : requests.Request) :
  requests_of t = [Post r] -> post_urls t = [requests.url r].
Proof.
  unfold requests_of, post_urls.
  induction t as [| ev t IH]; simpl; [discriminate |].
  destruct ev as [lv msg args | model msgs | r']; simpl.
  - exact IH.
  - intros H. inversion H.
  - intros H. inversion H as [[Hr Ht]]. f_equal.
    clear - Ht. induction t as [| ev t IH]; [reflexivity |].
    destruct ev; simpl in *; try discriminate; auto.
Qed.

(** X11: two configurations that differ only in the number of slashes at the
    end of [azure_base_url] make the adapter send the same request. *)
Theorem trailing_slashes_irrelevant (cfg cfg' : Config.t) (w0 w0' w : World)
    (self self' : LLM.t) (system_prompt user_content base : string) (n : nat) :
  result (LLM.__init__ cfg w0) = inr self ->
  result (LLM.__init__ cfg' w0') = inr self' ->
  LLM.model self = "azure" \/ LLM.model self = "azure_openai" ->
  LLM.model self' = "azure" \/ LLM.model self' = "azure_openai" ->
  Config.azure_base_url cfg = Some base ->
  Config.azure_base_url cfg' = Some (base ++ slashes n) ->
  Config.azure_deployment_name cfg' = Config.azure_deployment_name cfg ->
  Config.azure_api_key cfg' = Config.azure_api_key cfg ->
  Config.azure_api_version cfg' = Config.azure_api_version cfg ->
  requests_of (trace (LLM.generate_report self' system_prompt user_content w))
  = requests_of (trace (LLM.generate_report self system_prompt user_content w)).
Proof.
  intros Hinit Hinit' Hm Hm' Hb Hb' Hd Hk Hv.
  apply init_constructed in Hinit. apply init_constructed in Hinit'.
  destruct (constructed_azure_settings Hinit Hm) as (b & d & k & Eb & Ed & Ek).
  rewrite Hb in Eb. inversion Eb; subst b.
  rewrite (@azure_requests cfg self w system_prompt user_content Hinit
             base d k Hm Hb Ed Ek).
  rewrite <- Hd in Ed. rewrite <- Hk in Ek.
  rewrite (@azure_requests cfg' self' w system_prompt user_content Hinit'
             (base ++ slashes n) d k Hm' Hb' Ed Ek).
  rewrite rstrip_slash_slashes. unfold configured_version. rewrite Hv.
  reflexivity.
Qed.

Lemma trailing_slashes_irrelevant_witness :
  requests_of (trace (LLM.generate_report
                        (Sample.azure_llm "azure" "https://h.example//" "https://h.example")
                        "S" "U" Sample.world0))
  = requests_of (trace (LLM.generate_report
                          (Sample.azure_llm "azure" "https://h.example" "https://h.example")
                          "S" "U" Sample.world0)).
Proof.
  apply (@trailing_slashes_irrelevant
           (Sample.azure_cfg "azure" "https://h.example")
           (Sample.azure_cfg "azure" "https://h.example//")
           Sample.world0 Sample.world0 Sample.world0
           (Sample.azure_llm "azure" "https://h.example" "https://h.example")
           (Sample.azure_llm "azure" "https://h.example//" "https://h.example")
           "S" "U" "https://h.example" 2).
  - reflexivity.
  - reflexivity.
  - left. reflexivity.
  - left. reflexivity.
  - reflexivity.
  - reflexivity.
  - reflexivity.
  - reflexivity.
  - reflexivity.
Defined.

(** X12: a base URL made of slashes only passes the constructor's check for
    a non-empty value, is stored as the empty string, and the POST then goes
    to a URL that starts at [/openai/deployments/]. *)
Theorem slash_only_base_url (cfg : Config.t) (w0 w : World) (n : nat)
    (system_prompt user_content : string) :
  PyStr.lower (Config.llm_model_type cfg) = "azure" \/
  PyStr.lower (Config.llm_model_type cfg) = "azure_openai" ->
  Config.azure_base_url cfg = Some (slashes (S n)) ->
  present (Config.azure_deployment_name cfg) ->
  present (Config.azure_api_key cfg) ->
  exists self dep,
    result (LLM.__init__ cfg w0) = inr self /\
    LLM.azure_base_url self = Some "" /\
    Config.azure_deployment_name cfg = Some dep /\
    post_urls (trace (LLM.generate_report self system_prompt user_content w))
    = ["/openai/deployments/" ++ dep ++ "/chat/completions?api-version="
       ++ Py.format_opt (configured_version cfg)].
Proof.
  intros Hsel Hb Hd Hk.
  assert (Hpb : present (Config.azure_base_url cfg)).
  { exists (slashes (S n)). split; [exact Hb | discriminate]. }
  destruct (init_azure_complete cfg w0 Hsel Hpb Hd Hk) as [self Hinit].
  pose proof (init_constructed _ _ Hinit) as Hc.
  assert (Hm : LLM.model self = "azure" \/ LLM.model self = "azure_openai").
  { destruct (constructed_model Hc) as [-> _]. exact Hsel. }
  destruct (constructed_azure_settings Hc Hm) as (b & d & k & Eb & Ed & Ek).
  rewrite Hb in Eb. inversion Eb; subst b.
  exists self, d. split; [exact Hinit |]. split; [| split; [exact Ed |]].
  - destruct Hc as [c Hl | mo b' dn k' Hl Hm' Eb' _ _ _ _ _ | Hl]; simpl in Hm;
      [destruct Hm; discriminate | | destruct Hm; discriminate].
    rewrite Hb in Eb'. inversion Eb'; subst b'.
    unfold LLM.azure_base_url. f_equal. apply (rstrip_slash_slashes_only (S n)).
  - rewrite (post_urls_of_requests _
               (@azure_requests cfg self w system_prompt user_content Hc
                  (slashes (S n)) d k Hm Hb Ed Ek)).
    cbn [requests.url]. rewrite (rstrip_slash_slashes_only (S n)). reflexivity.
Qed.

Lemma slash_only_base_url_witness :
  exists self dep,
    result (LLM.__init__ (Sample.azure_cfg "azure" "//") Sample.world0) = inr self /\
    LLM.azure_base_url self = Some "" /\
    Config.azure_deployment_name (Sample.azure_cfg "azure" "//") = Some dep /\
    post_urls (trace (LLM.generate_report self "S" "U" Sample.world0))
    = ["/openai/deployments/" ++ dep ++ "/chat/completions?api-version="
       ++ Py.format_opt (configured_version (Sample.azure_cfg "azure" "//"))].
Proof.
  apply (@slash_only_base_url (Sample.azure_cfg "azure" "//") Sample.world0
           Sample.world0 1 "S" "U").
  - left. reflexivity.
  - reflexivity.
  - eexists. split; [reflexivity | discriminate].
  - eexists. split; [reflexivity | discriminate].
Defined.

(** X13: on the Azure and the Ollama back end, whatever [generate_report]
    returns counts as true; in particular it is not [None], and when it is a
    string it is not empty. *)
Theorem checked_paths_return_content (cfg : Config.t) (w0 w : World)
    (self : LLM.t) (system_prompt user_content : string) (v : pyval) :
  result (LLM.__init__ cfg w0) = inr self ->
  LLM.model self <> "openai" ->
  result (LLM.generate_report self system_prompt user_content w) = inr v ->
  Py.truthy v = true /\ v <> PyNone /\ v <> PyStr "".
Proof.
  intros Hinit Hm Hres. apply init_constructed in Hinit.
  assert (Hv : Py.truthy v = true).
  { destruct (constructed_backend Hinit) as [Ho | [Ha | Hl]].
    - contradiction.
    - rewrite (azure_dispatch self system_prompt user_content w Ha) in Hres.
      now apply azure_returns_truthy in Hres.
    - rewrite (ollama_dispatch self system_prompt user_content w Hl) in Hres.
      now apply ollama_returns_truthy in Hres. }
  split; [exact Hv |]. split; intros ->; discriminate.
Qed.

Lemma checked_paths_return_content_witness :
  Py.truthy (PyStr "R2") = true /\ PyStr "R2" <> PyNone /\ PyStr "R2" <> PyStr "".
Proof.
  apply (@checked_paths_return_content (Sample.plain_cfg "ollama") Sample.world0
           (SampleEnv.world_post 200
              (PyDict [("message", PyDict [("content", PyStr "R2")])]))
           (Sample.ollama_llm "ollama") "S" "U" (PyStr "R2")).
  - reflexivity.
  - discriminate.
  - reflexivity.
Defined.

(** X14: on the Azure and the Ollama back end, a 2xx reply whose body is not
    JSON raises the decoding error, and one whose JSON body is not an object
    raises [AttributeError] for the missing [get]. *)
Theorem reply_body_not_an_object (cfg : Config.t) (w0 w : World) (self : LLM.t)
    (system_prompt user_content : string) (resp : requests.Response) :
  result (LLM.__init__ cfg w0) = inr self ->
  LLM.model self <> "openai" ->
  (forall r, w_post w r = inr resp) ->
  200 <= requests.status_code resp < 300 ->
  (forall m, requests.response_json resp = inl m ->
     result (LLM.generate_report self system_prompt user_content w)
     = inl (JSONDecodeError m))
  /\
  (forall v, requests.response_json resp = inr v -> is_dict v = false ->
     result (LLM.generate_report self system_prompt user_content w)
     = inl (AttributeError ("'" ++ Py.type_name v
                            ++ "' object has no attribute 'get'"))).
Proof.
  intros Hinit Hm Hw Hst. apply init_constructed in Hinit.
  destruct Hinit as [c Hl | mo b dn k Hl [-> | ->] | Hl]; simpl in Hm;
    try (exfalso; now apply Hm);
    (split; [intros m Hj | intros v Hj Hv]);
    run_report; rewrite Hw; simpl;
    rewrite ?(raise_for_status_2xx resp Hst); simpl;
    unfold response_json; rewrite Hj; simpl; try reflexivity;
    destruct v; try discriminate; reflexivity.
Qed.

Lemma reply_body_not_an_object_witness :
  result (LLM.generate_report
            (Sample.azure_llm "azure" "https://h.example" "https://h.example")
            "S" "U" (SampleEnv.world_post 200 (PyList [PyStr "R"])))
  = inl (AttributeError "'list' object has no attribute 'get'").
Proof.
  apply (proj2 (@reply_body_not_an_object
                  (Sample.azure_cfg "azure" "https://h.example") Sample.world0
                  (SampleEnv.world_post 200 (PyList [PyStr "R"]))
                  (Sample.azure_llm "azure" "https://h.example" "https://h.example")
                  "S" "U" (Sample.response 200 (PyList [PyStr "R"]))
                  eq_refl ltac:(discriminate) (fun _ => eq_refl)
                  ltac:(simpl; lia))
               (PyList [PyStr "R"]) eq_refl eq_refl).
Defined.


(** * Properties of [src/config.py] *)

Lemma py_get_dict (d : list (string * pyval)) (k : string) (default : pyval) :
  py_get (PyDict d) k default = inr (dict_get d k default).
Proof. reflexivity. Qed.

Lemma py_get_inr (v : pyval) (k : string) (default x : pyval) :
  py_get v k default = inr x ->
  exists d, v = PyDict d /\ x = dict_get d k default.
Proof.
  destruct v; simpl; try discriminate. intros H; inversion H. eauto.
Qed.

Lemma azure_block_get (llm : list (string * pyval)) :
  (if is_dict (dict_get llm "azure" (PyDict []))
   then py_get (PyDict llm) "azure" (PyDict [])
   else inr (PyDict []))
  = inr (PyDict (azure_block_of llm)).
Proof.
  unfold azure_block_of, dict_get. simpl.
  destruct (Py.lookup "azure" llm) as [[] |]; reflexivity.
Qed.

Lemma flat_or_nested_get (llm : list (string * pyval)) (flat nested : string) :
  (if Py.truthy (dict_get llm flat PyNone) then inr (dict_get llm flat PyNone)
   else py_get (PyDict (azure_block_of llm)) nested PyNone)
  = inr (flat_or_nested llm flat nested) :> exn + pyval.
Proof.
  unfold flat_or_nested. destruct (Py.truthy _); reflexivity.
Qed.

(** What a successful load has read: the document and its four blocks are
    objects, and every attribute is the value the source computes from
    them. *)
Lemma load_config_inv (environ : string -> option string) (config : pyval)
    (c : ConfigLoader.t) :
  ConfigLoader.load_config environ config = inr c ->
  exists d de dg dl ds,
    config = PyDict d /\
    dict_get d "email" (PyDict []) = PyDict de /\
    dict_get d "github" (PyDict []) = PyDict dg /\
    dict_get d "llm" (PyDict []) = PyDict dl /\
    dict_get d "slack" (PyDict []) = PyDict ds /\
    c = {| ConfigLoader.email :=
             PyDict (py_set_item "password"
                       (os_getenv environ "EMAIL_PASSWORD"
                          (dict_get de "password" (PyStr ""))) de);
           ConfigLoader.github_token :=
             os_getenv environ "GITHUB_TOKEN" (dict_get dg "token" PyNone);
           ConfigLoader.subscriptions_file := dict_get dg "subscriptions_file" PyNone;
           ConfigLoader.freq_days := dict_get dg "progress_frequency_days" (PyInt 1);
           ConfigLoader.exec_time :=
             dict_get dg "progress_execution_time" (PyStr "08:00");
           ConfigLoader.llm_model_type := dict_get dl "model_type" (PyStr "openai");
           ConfigLoader.openai_model_name :=
             dict_get dl "openai_model_name" (PyStr "gpt-4o-mini");
           ConfigLoader.ollama_model_name :=
             dict_get dl "ollama_model_name" (PyStr "llama3");
           ConfigLoader.ollama_api_url :=
             dict_get dl "ollama_api_url" (PyStr "http://localhost:11434/api/chat");
           ConfigLoader.azure_base_url :=
             flat_or_nested dl "azure_base_url" "base_url";
           ConfigLoader.azure_deployment_name :=
             flat_or_nested dl "azure_deployment_name" "deployment_name";
           ConfigLoader.azure_api_key :=
             os_getenv environ "AZURE_OPENAI_KEY"
               (flat_or_nested dl "azure_api_key" "api_key");
           ConfigLoader.azure_api_version :=
             Py.or (flat_or_nested dl "azure_api_version" "api_version")
                   (PyStr "2023-05-15");
           ConfigLoader.report_types :=
             dict_get d "report_types" (PyList [PyStr "github"; PyStr "hacker_news"]);
           ConfigLoader.slack_webhook_url := dict_get ds "webhook_url" PyNone |}.
Proof.
  unfold ConfigLoader.load_config.
  destruct (py_get config "email" (PyDict [])) as [e | be] eqn:E1; [discriminate |].
  apply py_get_inr in E1. destruct E1 as (d & -> & ->).
  destruct (py_get (dict_get d "email" (PyDict [])) "password" (PyStr ""))
    as [e | pw] eqn:E2; [discriminate |].
  apply py_get_inr in E2. destruct E2 as (de & Ede & ->). rewrite Ede.
  cbn [py_setitem]. rewrite !py_get_dict.
  destruct (py_get (dict_get d "github" (PyDict [])) "token" PyNone)
    as [e | tk] eqn:E3; [discriminate |].
  apply py_get_inr in E3. destruct E3 as (dg & Edg & ->). rewrite Edg.
  rewrite !py_get_dict.
  destruct (py_get (dict_get d "llm" (PyDict [])) "model_type" (PyStr "openai"))
    as [e | mt] eqn:E4; [discriminate |].
  apply py_get_inr in E4. destruct E4 as (dl & Edl & ->). rewrite Edl.
  rewrite !py_get_dict. rewrite azure_block_get. rewrite !flat_or_nested_get.
  destruct (py_get (dict_get d "slack" (PyDict [])) "webhook_url" PyNone)
    as [e | wh] eqn:E5; [discriminate |].
  apply py_get_inr in E5. destruct E5 as (ds & Eds & ->).
  intros H. inversion H. exists d, de, dg, dl, ds. repeat split; assumption.
Qed.

Lemma load_config_ok (environ : string -> option string)
    (d de dg dl ds : list (string * pyval)) :
  dict_get d "email" (PyDict []) = PyDict de ->
  dict_get d "github" (PyDict []) = PyDict dg ->
  dict_get d "llm" (PyDict []) = PyDict dl ->
  dict_get d "slack" (PyDict []) = PyDict ds ->
  exists c, ConfigLoader.load_config environ (PyDict d) = inr c.
Proof.
  intros Ee Eg El Es. unfold ConfigLoader.load_config.
  rewrite !py_get_dict, Ee, Eg, El, Es. cbn [py_setitem].
  rewrite !py_get_dict, azure_block_get, !flat_or_nested_get.
  eexists. reflexivity.
Qed.

Lemma absent_or_dict_get (d : list (string * pyval)) (k : string) :
  absent_or_dict (Py.lookup k d) <->
  exists b, dict_get d k (PyDict []) = PyDict b.
Proof.
  unfold absent_or_dict, dict_get. split.
  - intros [-> | (b & ->)]; eauto.
  - destruct (Py.lookup k d) as [v |]; [| now left].
    intros (b & ->). right. eauto.
Qed.

(** X15: given a parsed document, [load_config] completes exactly when the
    document is a JSON object whose [email], [github], [llm] and [slack]
    entries are each absent or an object; nothing else in the document and
    nothing in the environment can make it fail. *)
Theorem load_config_succeeds_iff (environ : string -> option string)
    (config : pyval) :
  (exists c, ConfigLoader.load_config environ config = inr c) <->
  (exists d,
     config = PyDict d /\
     absent_or_dict (Py.lookup "email" d) /\
     absent_or_dict (Py.lookup "github" d) /\
     absent_or_dict (Py.lookup "llm" d) /\
     absent_or_dict (Py.lookup "slack" d)).
Proof.
  split.
  - intros (c & H). apply load_config_inv in H.
    destruct H as (d & de & dg & dl & ds & -> & Ee & Eg & El & Es & _).
    exists d. rewrite !absent_or_dict_get. repeat split; eauto.
  - intros (d & -> & He & Hg & Hl & Hs).
    apply absent_or_dict_get in He, Hg, Hl, Hs.
    destruct He as (de & Ee), Hg as (dg & Eg), Hl as (dl & El), Hs as (ds & Es).
    now apply load_config_ok with (de := de) (dg := dg) (dl := dl) (ds := ds).
Qed.

(** The attributes a load gives when the [llm] block has no entries. *)
Lemma load_config_llm_defaults (environ : string -> option string)
    (d : list (string * pyval)) (c : ConfigLoader.t) :
  ConfigLoader.load_config environ (PyDict d) = inr c ->
  dict_get d "llm" (PyDict []) = PyDict [] ->
  ConfigLoader.llm_model_type c = PyStr "openai" /\
  ConfigLoader.openai_model_name c = PyStr "gpt-4o-mini" /\
  ConfigLoader.ollama_model_name c = PyStr "llama3" /\
  ConfigLoader.ollama_api_url c = PyStr "http://localhost:11434/api/chat" /\
  ConfigLoader.azure_base_url c = PyNone /\
  ConfigLoader.azure_deployment_name c = PyNone /\
  ConfigLoader.azure_api_key c = Py.of_opt (environ "AZURE_OPENAI_KEY") /\
  ConfigLoader.azure_api_version c = PyStr "2023-05-15".
Proof.
  intros H Hl. apply load_config_inv in H.
  destruct H as (d' & de & dg & dl & ds & Ed & _ & _ & El & _ & ->).
  inversion Ed; subst d'. rewrite Hl in El. inversion El; subst dl.
  cbn. unfold os_getenv. destruct (environ "AZURE_OPENAI_KEY"); repeat split.
Qed.

(** X16: when the document has no [llm] entry, or an empty one, the loaded
    object selects [openai] with model [gpt-4o-mini], names [llama3] and the
    local chat URL for Ollama, has no Azure base URL or deployment name, takes
    the Azure key from [AZURE_OPENAI_KEY] alone, and has API version
    [2023-05-15]. *)
Theorem llm_defaults (environ : string -> option string)
    (d : list (string * pyval)) (c : ConfigLoader.t) :
  ConfigLoader.load_config environ (PyDict d) = inr c ->
  dict_get d "llm" (PyDict []) = PyDict [] ->
  ConfigLoader.llm_model_type c = PyStr "openai" /\
  ConfigLoader.openai_model_name c = PyStr "gpt-4o-mini" /\
  ConfigLoader.ollama_model_name c = PyStr "llama3" /\
  ConfigLoader.ollama_api_url c = PyStr "http://localhost:11434/api/chat" /\
  ConfigLoader.azure_base_url c = PyNone /\
  ConfigLoader.azure_deployment_name c = PyNone /\
  ConfigLoader.azure_api_key c = Py.of_opt (environ "AZURE_OPENAI_KEY") /\
  ConfigLoader.azure_api_version c = PyStr "2023-05-15".
Proof.
  intros H Hl. apply load_config_inv in H.
  destruct H as (d' & de & dg & dl & ds & Ed & _ & _ & El & _ & ->).
  inversion Ed; subst d'. rewrite Hl in El. inversion El; subst dl.
  cbn. unfold os_getenv. destruct (environ "AZURE_OPENAI_KEY"); repeat split.
Qed.

Lemma llm_defaults_witness :
  exists c,
    ConfigLoader.load_config SampleEnv.empty
      (PyDict [("github", PyDict [("token", PyStr "t")])]) = inr c /\
    ConfigLoader.llm_model_type c = PyStr "openai" /\
    ConfigLoader.azure_api_version c = PyStr "2023-05-15".
Proof.
  eexists. split; [reflexivity |].
  destruct (@llm_defaults SampleEnv.empty [("github", PyDict [("token", PyStr "t")])]
              _ eq_refl eq_refl) as (H1 & _ & _ & _ & _ & _ & _ & H8).
  split; [exact H1 | exact H8].
Defined.

Lemma lookup_set_item_same (k : string) (v : pyval) (d : list (string * pyval)) :
  Py.lookup k (py_set_item k v d) = Some v.
Proof.
  induction d as [| [k' v'] d IH]; simpl.
  - now rewrite String.eqb_refl.
  - destruct (String.eqb_spec k k') as [<- | Hne]; simpl.
    + now rewrite String.eqb_refl.
    + destruct (String.eqb_spec k k'); [contradiction | exact IH].
Qed.

Lemma lookup_set_item_other (k k' : string) (v : pyval)
    (d : list (string * pyval)) :
  k' <> k -> Py.lookup k' (py_set_item k v d) = Py.lookup k' d.
Proof.
  intros Hne. induction d as [| [k0 v0] d IH]; simpl.
  - destruct (String.eqb_spec k' k); [contradiction | reflexivity].
  - destruct (String.eqb_spec k k0) as [<- | Hk]; simpl.
    + destruct (String.eqb_spec k' k); [contradiction | reflexivity].
    + destruct (String.eqb_spec k' k0); [reflexivity | exact IH].
Qed.

Lemma load_config_env_key (environ : string -> option string) (config : pyval)
    (c : ConfigLoader.t) (k : string) :
  ConfigLoader.load_config environ config = inr c ->
  environ "AZURE_OPENAI_KEY" = Some k ->
  ConfigLoader.azure_api_key c = PyStr k.
Proof.
  intros H Hk. apply load_config_inv in H.
  destruct H as (d & de & dg & dl & ds & _ & _ & _ & _ & _ & ->).
  cbn [ConfigLoader.azure_api_key]. unfold os_getenv. now rewrite Hk.
Qed.

(** X17: a variable of the environment wins over the file.  When
    [AZURE_OPENAI_KEY], [GITHUB_TOKEN] or [EMAIL_PASSWORD] is set, the loaded
    key, token or e-mail password is the variable's value, whatever the
    document says, also when the value is the empty string. *)
Theorem environment_overrides_file (environ : string -> option string)
    (config : pyval) (c : ConfigLoader.t) :
  ConfigLoader.load_config environ config = inr c ->
  (forall k, environ "AZURE_OPENAI_KEY" = Some k ->
             ConfigLoader.azure_api_key c = PyStr k) /\
  (forall t, environ "GITHUB_TOKEN" = Some t ->
             ConfigLoader.github_token c = PyStr t) /\
  (forall p, environ "EMAIL_PASSWORD" = Some p ->
             py_get (ConfigLoader.email c) "password" PyNone = inr (PyStr p)).
Proof.
  intros H. apply load_config_inv in H.
  destruct H as (d & de & dg & dl & ds & _ & _ & _ & _ & _ & ->).
  cbn [ConfigLoader.azure_api_key ConfigLoader.github_token ConfigLoader.email].
  unfold os_getenv. repeat split.
  - intros k ->. reflexivity.
  - intros t ->. reflexivity.
  - intros p ->. rewrite py_get_dict. unfold dict_get.
    now rewrite lookup_set_item_same.
Qed.

Lemma environment_overrides_file_witness :
  exists c,
    ConfigLoader.load_config (SampleEnv.single "AZURE_OPENAI_KEY" "from-env")
      SampleEnv.azure_document = inr c /\
    ConfigLoader.azure_api_key c = PyStr "from-env".
Proof.
  eexists. split; [reflexivity |].
  apply (proj1 (@environment_overrides_file
                  (SampleEnv.single "AZURE_OPENAI_KEY" "from-env")
                  SampleEnv.azure_document _ eq_refl)).
  reflexivity.
Defined.

(** X18: for the Azure base URL and deployment name, a flat key of the [llm]
    block whose value counts as true is taken as it is; otherwise the key of
    the nested [azure] object is taken; and with neither (the nested entry
    absent or not an object) the attribute is [None]. *)
Theorem flat_key_before_nested (environ : string -> option string)
    (d dl : list (string * pyval)) (c : ConfigLoader.t)
    (attribute : ConfigLoader.t -> pyval) (flat nested : string) :
  ConfigLoader.load_config environ (PyDict d) = inr c ->
  dict_get d "llm" (PyDict []) = PyDict dl ->
  In (attribute, flat, nested) azure_file_settings ->
  (forall v, Py.lookup flat dl = Some v -> Py.truthy v = true ->
             attribute c = v) /\
  (forall a, Py.truthy (dict_get dl flat PyNone) = false ->
             Py.lookup "azure" dl = Some (PyDict a) ->
             attribute c = dict_get a nested PyNone) /\
  (forall o, Py.truthy (dict_get dl flat PyNone) = false ->
             Py.lookup "azure" dl = o ->
             (o = None \/ exists v, o = Some v /\ is_dict v = false) ->
             attribute c = PyNone).
Proof.
  intros H Hl Hin. apply load_config_inv in H.
  destruct H as (d' & de & dg & dl' & ds & Ed & _ & _ & El & _ & ->).
  inversion Ed; subst d'. rewrite Hl in El. inversion El; subst dl'.
  unfold azure_file_settings in Hin. simpl in Hin.
  destruct Hin as [Hin | [Hin | []]]; inversion Hin; subst; clear Hin;
    cbn [ConfigLoader.azure_base_url ConfigLoader.azure_deployment_name];
    unfold flat_or_nested, azure_block_of;
    (split; [| split]).
  1, 4: intros v Hv Ht; unfold dict_get; rewrite Hv, Ht; reflexivity.
  1, 3: intros a Hf Ha; rewrite Hf, Ha; reflexivity.
  1, 2: intros o Hf Ho [-> | (v & -> & Hv)]; rewrite Hf, Ho;
        [reflexivity | destruct v; try discriminate; reflexivity].
Qed.

Lemma flat_key_before_nested_witness :
  exists c,
    ConfigLoader.load_config SampleEnv.empty SampleEnv.azure_document = inr c /\
    ConfigLoader.azure_base_url c = PyStr "https://h.example/".
Proof.
  eexists. split; [reflexivity |].
  apply (proj1 (proj2 (@flat_key_before_nested SampleEnv.empty
                         [("llm",
                           PyDict [("model_type", PyStr "azure");
                                   ("azure",
                                    PyDict [("base_url", PyStr "https://h.example/");
                                            ("deployment_name", PyStr "gpt4");
                                            ("api_key", PyStr "secret")])])]
                         [("model_type", PyStr "azure");
                          ("azure",
                           PyDict [("base_url", PyStr "https://h.example/");
                                   ("deployment_name", PyStr "gpt4");
                                   ("api_key", PyStr "secret")])]
                         _
                         ConfigLoader.azure_base_url "azure_base_url" "base_url"
                         eq_refl eq_refl (or_introl eq_refl)))
               [("base_url", PyStr "https://h.example/");
                ("deployment_name", PyStr "gpt4");
                ("api_key", PyStr "secret")]).
  - reflexivity.
  - reflexivity.
Defined.

(** X19: the API version of a loaded configuration always counts as true: it
    is never [None] and never the empty string, so the default that [LLM]
    keeps for a missing attribute is not used with a loaded configuration. *)
Theorem loaded_api_version_set (environ : string -> option string)
    (config : pyval) (c : ConfigLoader.t) :
  ConfigLoader.load_config environ config = inr c ->
  Py.truthy (ConfigLoader.azure_api_version c) = true /\
  (forall cfg, ConfigLoader.to_Config c = Some cfg ->
     exists v, Config.azure_api_version cfg = Some (Some v) /\ v <> "" /\
               configured_version cfg = Some v).
Proof.
  intros H. apply load_config_inv in H.
  destruct H as (d & de & dg & dl & ds & _ & _ & _ & _ & _ & ->).
  assert (Ht : Py.truthy (Py.or (flat_or_nested dl "azure_api_version" "api_version")
                                (PyStr "2023-05-15")) = true).
  { unfold Py.or.
    destruct (Py.truthy (flat_or_nested dl "azure_api_version" "api_version"))
      eqn:E; [exact E | reflexivity]. }
  split; [exact Ht |].
  intros cfg. unfold ConfigLoader.to_Config.
  cbn [ConfigLoader.azure_api_version ConfigLoader.llm_model_type
       ConfigLoader.openai_model_name ConfigLoader.ollama_model_name
       ConfigLoader.ollama_api_url ConfigLoader.azure_base_url
       ConfigLoader.azure_deployment_name ConfigLoader.azure_api_key].
  destruct (ConfigLoader.as_str _); [| discriminate].
  destruct (ConfigLoader.as_str _); [| discriminate].
  destruct (ConfigLoader.as_str _); [| discriminate].
  destruct (ConfigLoader.as_str _); [| discriminate].
  destruct (ConfigLoader.as_opt_str _); [| discriminate].
  destruct (ConfigLoader.as_opt_str _); [| discriminate].
  destruct (ConfigLoader.as_opt_str _); [| discriminate].
  destruct (Py.or _ _) as [| | | | v | |]; simpl in *; try discriminate.
  intros Hc. inversion Hc; subst cfg. exists v. repeat split.
  intros ->. discriminate.
Qed.

Lemma loaded_api_version_set_witness :
  exists c,
    ConfigLoader.load_config SampleEnv.empty
      (PyDict [("llm", PyDict [("azure_api_version", PyStr "")])]) = inr c /\
    Py.truthy (ConfigLoader.azure_api_version c) = true.
Proof.
  eexists. split; [reflexivity |].
  apply (@loaded_api_version_set SampleEnv.empty
           (PyDict [("llm", PyDict [("azure_api_version", PyStr "")])]) _ eq_refl).
Defined.

(** X20: loading sets the [password] of the e-mail settings (to the variable
    [EMAIL_PASSWORD], else to the password of the file, else to the empty
    string) and leaves every other entry of the e-mail settings as it is in
    the document. *)
Theorem email_password_set (environ : string -> option string)
    (d de : list (string * pyval)) (c : ConfigLoader.t) :
  ConfigLoader.load_config environ (PyDict d) = inr c ->
  dict_get d "email" (PyDict []) = PyDict de ->
  exists de',
    ConfigLoader.email c = PyDict de' /\
    Py.lookup "password" de'
    = Some (os_getenv environ "EMAIL_PASSWORD" (dict_get de "password" (PyStr ""))) /\
    (forall k, k <> "password" -> Py.lookup k de' = Py.lookup k de).
Proof.
  intros H He. apply load_config_inv in H.
  destruct H as (d' & de0 & dg & dl & ds & Ed & Ee & _ & _ & _ & ->).
  inversion Ed; subst d'. rewrite He in Ee. inversion Ee; subst de0.
  eexists. split; [reflexivity |]. split.
  - apply lookup_set_item_same.
  - intros k Hk. now apply lookup_set_item_other.
Qed.

Lemma email_password_set_witness :
  exists c de',
    ConfigLoader.load_config SampleEnv.empty
      (PyDict [("email", PyDict [("smtp_server", PyStr "smtp.example");
                                 ("password", PyStr "pw")])]) = inr c /\
    ConfigLoader.email c = PyDict de' /\
    Py.lookup "password" de' = Some (PyStr "pw") /\
    Py.lookup "smtp_server" de' = Some (PyStr "smtp.example").
Proof.
  eexists.
  destruct (@email_password_set SampleEnv.empty
              [("email", PyDict [("smtp_server", PyStr "smtp.example");
                                 ("password", PyStr "pw")])]
              [("smtp_server", PyStr "smtp.example"); ("password", PyStr "pw")]
              _ eq_refl eq_refl) as (de' & H1 & H2 & H3).
  exists de'. split; [reflexivity |]. split; [exact H1 |]. split; [exact H2 |].
  rewrite H3; [reflexivity | discriminate].
Defined.


(** * From the configuration file to the adapter *)

(** X21: a document without [llm] entry (or with an empty one) loads into a
    configuration from which the constructor, when [OpenAI()] succeeds, builds
    an OpenAI adapter whose every call asks for the model [gpt-4o-mini]. *)
Theorem default_configuration_selects_openai (environ : string -> option string)
    (d : list (string * pyval)) (c : ConfigLoader.t) (w0 : World) :
  ConfigLoader.load_config environ (PyDict d) = inr c ->
  dict_get d "llm" (PyDict []) = PyDict [] ->
  exists cfg,
    ConfigLoader.to_Config c = Some cfg /\
    (forall client, w_openai_new w0 = inr client ->
       exists self,
         LLM.__init__ cfg w0 = ([], inr self) /\
         LLM.model self = "openai" /\
         forall system_prompt user_content w,
           requests_of (trace (LLM.generate_report self system_prompt user_content w))
           = [ChatCreate "gpt-4o-mini"
                (PyList [system_message system_prompt; user_message user_content])]).
Proof.
  intros H Hl.
  destruct (@load_config_llm_defaults environ d c H Hl)
    as (H1 & H2 & H3 & H4 & H5 & H6 & H7 & H8).
  unfold ConfigLoader.to_Config. rewrite H1, H2, H3, H4, H5, H6, H7, H8.
  destruct (environ "AZURE_OPENAI_KEY") as [k |]; simpl; eexists;
    (split; [reflexivity |]); intros client Hc;
    unfold LLM.__init__; simpl; unfold_M; simpl; rewrite Hc;
    (eexists; split; [reflexivity |]; split; [reflexivity |]);
    intros sp uc w;
    match goal with
    | |- requests_of (fst (LLM.generate_report ?s _ _ _)) = _ =>
        apply (@openai_requests (LLM.config s) s w sp uc);
        [now constructor | reflexivity]
    end.
Qed.

Lemma default_configuration_selects_openai_witness :
  exists c cfg,
    ConfigLoader.load_config SampleEnv.empty (PyDict []) = inr c /\
    ConfigLoader.to_Config c = Some cfg /\
    Config.llm_model_type cfg = "openai".
Proof.
  eexists.
  destruct (@default_configuration_selects_openai SampleEnv.empty [] _
              Sample.world0 eq_refl eq_refl) as (cfg & Hc & _).
  exists cfg. split; [reflexivity |]. split; [exact Hc |].
  inversion Hc. reflexivity.
Defined.

Lemma to_Config_fields (c : ConfigLoader.t) (cfg : Config.t) :
  ConfigLoader.to_Config c = Some cfg ->
  ConfigLoader.llm_model_type c = PyStr (Config.llm_model_type cfg) /\
  ConfigLoader.azure_base_url c = Py.of_opt (Config.azure_base_url cfg) /\
  ConfigLoader.azure_deployment_name c = Py.of_opt (Config.azure_deployment_name cfg) /\
  ConfigLoader.azure_api_key c = Py.of_opt (Config.azure_api_key cfg).
Proof.
  unfold ConfigLoader.to_Config, ConfigLoader.as_str, ConfigLoader.as_opt_str.
  intros H.
  destruct (ConfigLoader.llm_model_type c); try discriminate.
  destruct (ConfigLoader.openai_model_name c); try discriminate.
  destruct (ConfigLoader.ollama_model_name c); try discriminate.
  destruct (ConfigLoader.ollama_api_url c); try discriminate.
  destruct (ConfigLoader.azure_base_url c); try discriminate;
    destruct (ConfigLoader.azure_deployment_name c); try discriminate;
    destruct (ConfigLoader.azure_api_key c); try discriminate;
    destruct (ConfigLoader.azure_api_version c); try discriminate;
    inversion H; repeat split.
Qed.

Lemma to_Config_api_key (c : ConfigLoader.t) (cfg : Config.t) (k : string) :
  ConfigLoader.to_Config c = Some cfg ->
  ConfigLoader.azure_api_key c = PyStr k ->
  Config.azure_api_key cfg = Some k.
Proof.
  intros H Hk. destruct (@to_Config_fields c cfg H) as (_ & _ & _ & Hf).
  rewrite Hf in Hk. destruct (Config.azure_api_key cfg); inversion Hk.
  reflexivity.
Qed.

(** X22: when [AZURE_OPENAI_KEY] is set to the empty string, an Azure
    configuration is rejected by the constructor even if the file holds a
    key: the variable replaces the key of the file. *)
Theorem empty_key_variable_rejected (environ : string -> option string)
    (config : pyval) (c : ConfigLoader.t) (cfg : Config.t) (w : World) :
  ConfigLoader.load_config environ config = inr c ->
  ConfigLoader.to_Config c = Some cfg ->
  environ "AZURE_OPENAI_KEY" = Some "" ->
  PyStr.lower (Config.llm_model_type cfg) = "azure" \/
  PyStr.lower (Config.llm_model_type cfg) = "azure_openai" ->
  result (LLM.__init__ cfg w) = inl (ValueError LLM.incomplete_msg).
Proof.
  intros H Hc He Hsel.
  pose proof (@load_config_env_key environ config c "" H He) as Hk.
  apply init_azure_incomplete; [exact Hsel |].
  right. right. right. exact (@to_Config_api_key c cfg "" Hc Hk).
Qed.

Lemma empty_key_variable_rejected_witness :
  exists c cfg,
    ConfigLoader.load_config (SampleEnv.single "AZURE_OPENAI_KEY" "")
      SampleEnv.azure_document = inr c /\
    ConfigLoader.to_Config c = Some cfg /\
    result (LLM.__init__ cfg Sample.world0) = inl (ValueError LLM.incomplete_msg).
Proof.
  do 2 eexists. split; [reflexivity |]. split; [reflexivity |].
  apply (@empty_key_variable_rejected (SampleEnv.single "AZURE_OPENAI_KEY" "")
           SampleEnv.azure_document _ _ Sample.world0 eq_refl eq_refl eq_refl).
  left. reflexivity.
Defined.

Lemma flat_or_nested_nested (dl da : list (string * pyval))
    (flat nested : string) (v : pyval) :
  Py.truthy (dict_get dl flat PyNone) = false ->
  Py.lookup "azure" dl = Some (PyDict da) ->
  Py.lookup nested da = Some v ->
  flat_or_nested dl flat nested = v.
Proof.
  intros Hf Ha Hn. unfold flat_or_nested, azure_block_of.
  rewrite Hf, Ha. unfold dict_get. now rewrite Hn.
Qed.

(** X23: Azure settings kept in the nested [azure] object of the file reach
    the request.  With no flat key in use and [AZURE_OPENAI_KEY] unset, the
    constructor accepts the loaded configuration, and a call posts to the
    template over the nested base URL without its trailing slashes and the
    nested deployment name, with the nested key in the [api-key] header. *)
Theorem nested_azure_settings_reach_request (environ : string -> option string)
    (d dl da : list (string * pyval)) (c : ConfigLoader.t) (cfg : Config.t)
    (w0 w : World) (base dep key system_prompt user_content : string) :
  ConfigLoader.load_config environ (PyDict d) = inr c ->
  ConfigLoader.to_Config c = Some cfg ->
  PyStr.lower (Config.llm_model_type cfg) = "azure" \/
  PyStr.lower (Config.llm_model_type cfg) = "azure_openai" ->
  dict_get d "llm" (PyDict []) = PyDict dl ->
  Py.lookup "azure" dl = Some (PyDict da) ->
  Py.truthy (dict_get dl "azure_base_url" PyNone) = false ->
  Py.truthy (dict_get dl "azure_deployment_name" PyNone) = false ->
  Py.truthy (dict_get dl "azure_api_key" PyNone) = false ->
  environ "AZURE_OPENAI_KEY" = None ->
  Py.lookup "base_url" da = Some (PyStr base) -> base <> "" ->
  Py.lookup "deployment_name" da = Some (PyStr dep) -> dep <> "" ->
  Py.lookup "api_key" da = Some (PyStr key) -> key <> "" ->
  exists self r,
    result (LLM.__init__ cfg w0) = inr self /\
    requests_of (trace (LLM.generate_report self system_prompt user_content w))
    = [Post r] /\
    requests.url r
    = azure_url_template (PyStr.rstrip_slash base) dep
        (Py.format_opt (configured_version cfg)) /\
    requests.headers r
    = Some [("Content-Type", PyStr "application/json"); ("api-key", PyStr key)].
Proof.
  intros H Hc Hsel Hl Ha Fb Fd Fk He Hb Nb Hd Nd Hk Nk.
  destruct (@to_Config_fields c cfg Hc) as (_ & Eb & Ed & Ek).
  apply load_config_inv in H.
  destruct H as (d' & de & dg & dl' & ds & E & _ & _ & El & _ & ->).
  inversion E; subst d'. rewrite Hl in El. inversion El; subst dl'.
  cbn [ConfigLoader.azure_base_url ConfigLoader.azure_deployment_name
       ConfigLoader.azure_api_key] in Eb, Ed, Ek.
  rewrite (flat_or_nested_nested dl "azure_base_url" "base_url" Fb Ha Hb) in Eb.
  rewrite (flat_or_nested_nested dl "azure_deployment_name" "deployment_name"
             Fd Ha Hd) in Ed.
  rewrite (flat_or_nested_nested dl "azure_api_key" "api_key" Fk Ha Hk) in Ek.
  unfold os_getenv in Ek. rewrite He in Ek.
  assert (Cb : Config.azure_base_url cfg = Some base)
    by (destruct (Config.azure_base_url cfg); inversion Eb; reflexivity).
  assert (Cd : Config.azure_deployment_name cfg = Some dep)
    by (destruct (Config.azure_deployment_name cfg); inversion Ed; reflexivity).
  assert (Ck : Config.azure_api_key cfg = Some key)
    by (destruct (Config.azure_api_key cfg); inversion Ek; reflexivity).
  destruct (@init_azure_complete cfg w0 Hsel) as [self Hinit].
  { now exists base. }
  { now exists dep. }
  { now exists key. }
  pose proof (@init_constructed cfg w0 self Hinit) as Hcon.
  assert (Hm : LLM.model self = "azure" \/ LLM.model self = "azure_openai").
  { destruct (constructed_model Hcon) as [-> _]. exact Hsel. }
  exists self. eexists. split; [exact Hinit |]. split.
  - exact (@azure_requests cfg self w system_prompt user_content Hcon
             base dep key Hm Cb Cd Ck).
  - split; reflexivity.
Qed.

Lemma nested_azure_settings_reach_request_witness :
  exists c cfg self r,
    ConfigLoader.load_config SampleEnv.empty SampleEnv.azure_document = inr c /\
    ConfigLoader.to_Config c = Some cfg /\
    result (LLM.__init__ cfg Sample.world0) = inr self /\
    requests_of (trace (LLM.generate_report self "S" "U" Sample.world0)) = [Post r] /\
    requests.url r
    = "https://h.example/openai/deployments/gpt4/chat/completions?api-version=2023-05-15".
Proof.
  do 2 eexists.
  destruct (@nested_azure_settings_reach_request SampleEnv.empty
              [("llm",
                PyDict [("model_type", PyStr "azure");
                        ("azure",
                         PyDict [("base_url", PyStr "https://h.example/");
                                 ("deployment_name", PyStr "gpt4");
                                 ("api_key", PyStr "secret")])])]
              [("model_type", PyStr "azure");
               ("azure",
                PyDict [("base_url", PyStr "https://h.example/");
                        ("deployment_name", PyStr "gpt4");
                        ("api_key", PyStr "secret")])]
              [("base_url", PyStr "https://h.example/");
               ("deployment_name", PyStr "gpt4");
               ("api_key", PyStr "secret")]
              _ _ Sample.world0 Sample.world0
              "https://h.example/" "gpt4" "secret" "S" "U"
              eq_refl eq_refl (or_introl eq_refl) eq_refl eq_refl eq_refl eq_refl
              eq_refl eq_refl eq_refl ltac:(discriminate) eq_refl
              ltac:(discriminate) eq_refl ltac:(discriminate))
    as (self & r & H1 & H2 & H3 & _).
  exists self, r. split; [reflexivity |]. split; [reflexivity |].
  split; [exact H1 |]. split; [exact H2 |]. exact H3.
Defined.
